(** * Runway assignment geometry and scoring (geom.py, testapi.py)

    A shallow embedding of the geometry-and-scoring core of the runway
    classifier, together with the properties its specification states.

    Numbers.  Python floats are read as real numbers ([R] of the Standard
    Library): every arithmetic operation is exact, [math.sin], [math.cos] and
    [math.hypot] are the real functions, and [math.radians] multiplies by
    [PI / 180].  Rounding, NaN and signed zeros are outside the model.  The one
    non-finite float the code itself writes, [float("inf")] in the initial
    tie-break tuple, is kept through the type [pyfloat].

    Failures.  A subscript [d["k"]] on a missing key raises [KeyError], and
    a float division by zero raises [ZeroDivisionError]; both are results of
    the type [result]. *)

From Stdlib Require Import Reals Lra Lia ZArith.
From stdpp Require Import base option strings gmap.

#[local] Open Scope R_scope.

(** ** Exceptions *)

Inductive exn : Type :=
  | KeyError (key : string)
  | ZeroDivisionError.

Inductive result (A : Type) : Type :=
  | Ok (a : A)
  | Raise (e : exn).

Arguments Ok {A} a.
Arguments Raise {A} e.

#[global] Instance result_ret : MRet result := fun A a => Ok a.

#[global] Instance result_bind : MBind result := fun A B k r =>
  match r with
  | Ok a => k a
  | Raise e => Raise e
  end.

(** [d[key]] of a dict whose key may be absent. *)
Definition subscript {A : Type} (key : string) (v : option A) : result A :=
  match v with
  | Some a => Ok a
  | None => Raise (KeyError key)
  end.

(** [d.get(key, dflt)]. *)
Definition dict_get {A : Type} (v : option A) (dflt : A) : A :=
  match v with
  | Some a => a
  | None => dflt
  end.

(** Float division [a / b]. *)
Definition py_div (a b : R) : result R :=
  if Req_dec_T b 0 then Raise ZeroDivisionError else Ok (a / b).

(** ** Comparisons as booleans *)

Definition Rgtb (a b : R) : bool := if Rgt_dec a b then true else false.
Definition Rltb (a b : R) : bool := if Rlt_dec a b then true else false.
Definition Rleb (a b : R) : bool := if Rle_dec a b then true else false.
Definition Reqb (a b : R) : bool := if Req_dec_T a b then true else false.

(** ** Angle and small math helpers *)

Definition NM_PER_M : R := 1 / 1852.
Definition R_EARTH_M : R := 6371000.

(** Float [x % y] for a non-zero divisor: the remainder has the sign of the
    divisor, [x - y * floor (x / y)].  The code only divides by [360.0]. *)
Definition py_mod (x y : R) : R := x - y * IZR (Int_part (x / y)).

(** [math.radians]. *)
Definition radians (deg : R) : R := deg * (PI / 180).

(** [math.hypot]. *)
Definition hypot (x y : R) : R := sqrt (x * x + y * y).

Definition wrap_180 (deg : R) : R :=
  let x := py_mod (deg + 180) 360 - 180 in
  if Req_dec_T x 180 then -180 else x.

Definition ang_diff_deg (a b : R) : R := Rabs (wrap_180 (a - b)).

(** ** Types *)

(** One landing direction of a runway. *)
Record RunwayDir : Type := {
  rw_id : string;
  lat_thr : R;
  lon_thr : R;
  course_deg : R;
  elev_ft : R
}.

(** The fields of a state vector the core reads.  [callsign] is read with
    [.get], the altitudes may be [None]. *)
Record AircraftState : Type := {
  callsign : option string;
  lat : R;
  lon : R;
  track_deg : R;
  velocity_mps : R;
  geo_alt : option R;
  baro_alt : option R
}.

(** [TypedDict] with [total=False]: any key may be absent. *)
Record ScoreParams : Type := {
  track_gate_deg : option R;
  xtrack_gate_nm : option R;
  w_track : option R;
  w_xtrack : option R;
  use_distance : option bool;
  d_peak_nm : option R;
  d_span_nm : option R;
  w_dist : option R
}.

Definition DEFAULT_PARAMS : ScoreParams := {|
  track_gate_deg := Some 20;
  xtrack_gate_nm := None;
  w_track := Some 0.45;
  w_xtrack := Some 0.45;
  use_distance := Some true;
  d_peak_nm := Some 4;
  d_span_nm := Some 6;
  w_dist := Some 0.10
|}.

(** ** Local ENU and runway vectors *)

Definition en_from_threshold (lat lon lat_thr lon_thr : R) : R * R :=
  let phi0 := radians lat_thr in
  let dphi := radians (lat - lat_thr) in
  let dlam := radians (lon - lon_thr) in
  let north_m := dphi * R_EARTH_M in
  let east_m := dlam * cos phi0 * R_EARTH_M in
  (east_m, north_m).

Definition runway_unit_vectors (course_deg : R) : (R * R) * (R * R) :=
  let th := radians course_deg in
  let a_e := sin th in
  let a_n := cos th in
  let r_e := cos th in
  let r_n := - sin th in
  ((a_e, a_n), (r_e, r_n)).

(** ** Core geometry and scoring *)

Definition cross_along_nm (ac_lat ac_lon : R) (rw : RunwayDir) : R * R * R :=
  let '(east_m, north_m) :=
    en_from_threshold ac_lat ac_lon (lat_thr rw) (lon_thr rw) in
  let '((a_e, a_n), (r_e, r_n)) := runway_unit_vectors (course_deg rw) in
  let s_m := east_m * a_e + north_m * a_n in
  let x_m := east_m * r_e + north_m * r_n in
  let d_m := hypot east_m north_m in
  (x_m * NM_PER_M, s_m * NM_PER_M, d_m * NM_PER_M).

(** The diagnostic dict returned on a gate failure. *)
Definition gate_terms (dtrack x_nm d_nm : R) : gmap string R :=
  {[ "dtrack" := dtrack; "x_nm" := x_nm; "d_nm" := d_nm ]}.

(** The diagnostic dict returned on the passing branch. *)
Definition pass_terms (dtrack x_nm s_nm d_nm T X : R) : gmap string R :=
  {[ "dtrack" := dtrack; "x_nm" := x_nm; "s_nm" := s_nm; "d_nm" := d_nm;
     "T" := T; "X" := X ]}.

Definition runway_fit_score (ac : AircraftState) (rw : RunwayDir)
    (params : ScoreParams) : result (bool * R * gmap string R) :=
  let dtrack := ang_diff_deg (track_deg ac) (course_deg rw) in
  let '(x_nm, s_nm, d_nm) := cross_along_nm (lat ac) (lon ac) rw in
  (* hard gates *)
  g_t ← subscript "track_gate_deg" (track_gate_deg params);
  if Rgtb dtrack g_t then Ok (false, 0, gate_terms dtrack x_nm d_nm) else
  g_x ← subscript "xtrack_gate_nm" (xtrack_gate_nm params);
  if Rgtb (Rabs x_nm) g_x then Ok (false, 0, gate_terms dtrack x_nm d_nm) else
  (* normalized terms; a key read again gives the value already bound *)
  q_t ← py_div dtrack g_t;
  let T := Rmax 0 (1 - q_t) in
  q_x ← py_div (Rabs x_nm) g_x;
  let X := Rmax 0 (1 - q_x) in
  wt ← subscript "w_track" (w_track params);
  wx ← subscript "w_xtrack" (w_xtrack params);
  let score := wt * T + wx * X in
  score ←
    (if dict_get (use_distance params) false then
       let D_peak := dict_get (d_peak_nm params) 8 in
       let D_span := Rmax 1e-6 (dict_get (d_span_nm params) 8) in
       q_d ← py_div (Rabs (d_nm - D_peak)) D_span;
       let D := Rmax 0 (1 - q_d) in
       wd ← subscript "w_dist" (w_dist params);
       Ok ((1 - wd) * score + wd * D)
     else Ok score);
  Ok (true, Rmin 1 (Rmax 0 score), pass_terms dtrack x_nm s_nm d_nm T X).

Definition confidence_from_terms (dtrack_deg x_nm : R) : string :=
  let ad := Rabs dtrack_deg in
  let ax := Rabs x_nm in
  if Rleb ad 10 && Rleb ax 0.20 then "high"
  else if Rleb ad 20 && Rleb ax 0.40 then "medium"
  else "low".

(** ** Selection *)

(** A float that may be [float("inf")]. *)
Inductive pyfloat : Type :=
  | Fin (r : R)
  | Inf.

Definition pyfloat_eqb (a b : pyfloat) : bool :=
  match a, b with
  | Fin x, Fin y => Reqb x y
  | Inf, Inf => true
  | _, _ => false
  end.

Definition pyfloat_ltb (a b : pyfloat) : bool :=
  match a, b with
  | Fin x, Fin y => Rltb x y
  | Fin _, Inf => true
  | Inf, _ => false
  end.

(** [a < b] on 3-tuples: the first position where the two differ decides. *)
Definition tuple_ltb (a b : pyfloat * pyfloat * pyfloat) : bool :=
  let '(a1, a2, a3) := a in
  let '(b1, b2, b3) := b in
  if negb (pyfloat_eqb a1 b1) then pyfloat_ltb a1 b1
  else if negb (pyfloat_eqb a2 b2) then pyfloat_ltb a2 b2
  else pyfloat_ltb a3 b3.

(** [math.isclose(a, b)] with its defaults [rel_tol=1e-09], [abs_tol=0.0],
    on finite floats. *)
Definition isclose (a b : R) : bool :=
  let rel_tol := 1e-9 in
  let abs_tol := 0 in
  if Reqb a b then true
  else
    let diff := Rabs (b - a) in
    Rleb diff (Rabs (rel_tol * b)) || Rleb diff (Rabs (rel_tol * a))
    || Rleb diff abs_tol.

(** [float(passed)]. *)
Definition float_of_bool (b : bool) : R := if b then 1 else 0.

(** The local variables of the selection loop. *)
Record locals : Type := {
  results : gmap string (gmap string R);
  best_id : option string;
  best_score : R;
  best_tiebreak : pyfloat * pyfloat * pyfloat
}.

Definition locals_init : locals := {|
  results := ∅;
  best_id := None;
  best_score := 0;
  best_tiebreak := (Inf, Inf, Inf)
|}.

(** The dict literal [{"pass": float(passed), "score": score, **dbg}]: keys
    of [dbg] come last and would override the two written before them. *)
Definition debug_entry (passed : bool) (score : R) (dbg : gmap string R)
    : gmap string R :=
  dbg ∪ {[ "pass" := float_of_bool passed; "score" := score ]}.

(** One iteration of [for rw in runways]. *)
Definition loop_body (ac : AircraftState) (params : ScoreParams)
    (st : locals) (rw : RunwayDir) : result locals :=
  '(passed, score, dbg) ← runway_fit_score ac rw params;
  let st := {| results := <[rw_id rw := debug_entry passed score dbg]> (results st);
               best_id := best_id st;
               best_score := best_score st;
               best_tiebreak := best_tiebreak st |} in
  if negb passed then Ok st else
  x ← subscript "x_nm" (dbg !! "x_nm");
  dt ← subscript "dtrack" (dbg !! "dtrack");
  d ← subscript "d_nm" (dbg !! "d_nm");
  let tiebreak := (Fin (Rabs x), Fin dt, Fin d) in
  if Rgtb score (best_score st)
     || (isclose score (best_score st) && tuple_ltb tiebreak (best_tiebreak st))
  then Ok {| results := results st;
             best_id := Some (rw_id rw);
             best_score := score;
             best_tiebreak := tiebreak |}
  else Ok st.

Fixpoint loop (ac : AircraftState) (params : ScoreParams)
    (runways : list RunwayDir) (st : locals) : result locals :=
  match runways with
  | [] => Ok st
  | rw :: rest => st' ← loop_body ac params st rw; loop ac params rest st'
  end.

(** The returned dict, with its four keys as fields. *)
Record Assignment : Type := {
  a_callsign : string;
  a_best_id : option string;
  a_best_score : R;
  a_debug : gmap string (gmap string R)
}.

Definition assign_runway_for_aircraft (ac : AircraftState)
    (runways : list RunwayDir) (params : ScoreParams) : result Assignment :=
  st ← loop ac params runways locals_init;
  Ok {| a_callsign := dict_get (callsign ac) "";
        a_best_id := best_id st;
        a_best_score := best_score st;
        a_debug := results st |}.

Definition assign_runways (aircraft : list AircraftState)
    (runways : list RunwayDir) (params : ScoreParams)
    : result (list Assignment) :=
  mapM (fun ac => assign_runway_for_aircraft ac runways params) aircraft.

(** ** The snapshot runner (testapi.py) *)

Module testapi.

Definition PARAMS : ScoreParams := {|
  track_gate_deg := Some 20;
  xtrack_gate_nm := Some 0.3;
  w_track := Some 0.5;
  w_xtrack := Some 0.5;
  use_distance := Some false;
  d_peak_nm := None;
  d_span_nm := None;
  w_dist := None
|}.

Definition confidence_from_terms (dtrack_deg x_nm : R) : string :=
  let ad := Rabs dtrack_deg in
  let ax := Rabs x_nm in
  if Rleb ad 10 && Rleb ax 0.20 then "high"
  else if Rleb ad 20 && Rleb ax 0.40 then "medium"
  else "low".

End testapi.

(** ** ICN runway table *)

Definition mkRunway (id : string) (lat_thr lon_thr course_deg elev_ft : R)
    : RunwayDir :=
  {| rw_id := id; lat_thr := lat_thr; lon_thr := lon_thr;
     course_deg := course_deg; elev_ft := elev_ft |}.

Definition RUNWAYS : list RunwayDir := [
  mkRunway "33L" 37.4542 126.4608 333 23;
  mkRunway "33R" 37.4540 126.4437 333 23;
  mkRunway "34L" 37.4762 126.4155 340 23;
  mkRunway "34R" 37.4728 126.4317 340 23;
  mkRunway "15L" 37.4818 126.4363 153 23;
  mkRunway "15R" 37.4802 126.4500 153 23;
  mkRunway "16L" 37.4728 126.4417 160 23;
  mkRunway "16R" 37.4789 126.4149 160 23
].

(** ** Inputs of the scenarios *)

Definition mkAircraft (lat lon track_deg : R) : AircraftState :=
  {| callsign := Some "TEST"; lat := lat; lon := lon; track_deg := track_deg;
     velocity_mps := 70; geo_alt := None; baro_alt := None |}.

(** Threshold at (0,0), runway course 0. *)
Definition rw_north : RunwayDir := mkRunway "36" 0 0 0 0.

(** Aircraft at (0.01, 0), track 0. *)
Definition ac_on_centerline : AircraftState := mkAircraft 0.01 0 0.

(** The same position, track 25. *)
Definition ac_off_track : AircraftState := mkAircraft 0.01 0 25.

(** Every recognized key given a value. *)
Definition full_params : ScoreParams := {|
  track_gate_deg := Some 20;
  xtrack_gate_nm := Some 0.3;
  w_track := Some 0.45;
  w_xtrack := Some 0.45;
  use_distance := Some true;
  d_peak_nm := Some 4;
  d_span_nm := Some 6;
  w_dist := Some 0.10
|}.

(** All keys present, but a track gate of zero. *)
Definition zero_gate_params : ScoreParams := {|
  track_gate_deg := Some 0;
  xtrack_gate_nm := Some 0.3;
  w_track := Some 0.45;
  w_xtrack := Some 0.45;
  use_distance := Some true;
  d_peak_nm := Some 4;
  d_span_nm := Some 6;
  w_dist := Some 0.10
|}.

(** An aircraft south-east of ICN tracking 333, the course of 33L/33R. *)
Definition ac_final_33 : AircraftState := mkAircraft 37.40 126.50 333.

(** An aircraft near ICN flying east, away from every landing course. *)
Definition ac_eastbound : AircraftState := mkAircraft 37.40 126.50 90.

(** A table in which two directions carry the same id. *)
Definition runways_same_id : list RunwayDir := [
  mkRunway "33L" 37.4542 126.4608 333 23;
  mkRunway "33L" 37.4540 126.4437 333 23
].

(** Two directions from one threshold whose courses differ by 1e-10 degree,
    and an aircraft just north of it tracking 1 degree. *)
Definition rw_A : RunwayDir := mkRunway "A" 0 0 0 0.
Definition rw_B : RunwayDir := mkRunway "B" 0 0 1e-10 0.
Definition ac_tie : AircraftState := mkAircraft 0.001 0 1.

(** ** Great-circle bearing and distance (geom.py) *)

(** [math.degrees]. *)
Definition degrees (rad : R) : R := rad * (180 / PI).

(** [math.atan2(y, x)] on reals: the angle of the point (x, y) in
    (-PI, PI], and 0 at the origin. *)
Definition atan2 (y x : R) : R :=
  if Rltb 0 x then atan (y / x)
  else if Rltb x 0 then
    (if Rleb 0 y then atan (y / x) + PI else atan (y / x) - PI)
  else if Rltb 0 y then PI / 2
  else if Rltb y 0 then - (PI / 2)
  else 0.

Definition bearing_deg (lat1 lon1 lat2 lon2 : R) : R :=
  let phi1 := radians lat1 in
  let phi2 := radians lat2 in
  let dlam := radians (lon2 - lon1) in
  let y := sin dlam * cos phi2 in
  let x := cos phi1 * sin phi2 - sin phi1 * cos phi2 * cos dlam in
  let th := degrees (atan2 y x) in
  let th := py_mod (th + 360) 360 in
  th.

(** [math.sqrt] and [math.asin] raise [ValueError] outside their domains;
    [None] stands for that exception. *)
Definition py_sqrt (x : R) : option R :=
  if Rltb x 0 then None else Some (sqrt x).

Definition py_asin (x : R) : option R :=
  if Rltb x (-1) || Rltb 1 x then None else Some (asin x).

Definition haversine_nm (lat1 lon1 lat2 lon2 : R) : option R :=
  let R_nm := 3440.065 in
  let phi1 := radians lat1 in
  let phi2 := radians lat2 in
  let dphi := phi2 - phi1 in
  let dlam := radians (lon2 - lon1) in
  let a := sin (dphi / 2) ^ 2 + cos phi1 * cos phi2 * sin (dlam / 2) ^ 2 in
  r ← py_sqrt a;
  v ← py_asin r;
  Some (2 * R_nm * v).

(** ** Rows, filters and the per-aircraft summary (testapi.py) *)

(** A parsed state vector: the dict built by [parse_states], its values
    typed as the feed documents them, [None] for a JSON null.  [lat] and
    [lon] are not null in a parsed row; [dist_nm] is absent until
    [filter_within_nm_any_threshold] writes it. *)
Module StateRow.
Record t : Type := mk {
  icao24 : string;
  callsign : string;
  origin_country : string;
  time_position : option Z;
  last_contact : Z;
  lon : R;
  lat : R;
  baro_alt : option R;
  on_ground : option bool;
  velocity_mps : option R;
  track_deg : option R;
  vertical_rate_mps : option R;
  geo_alt : option R;
  squawk : option string;
  position_source : Z;
  dist_nm : option R
}.

(** [r["dist_nm"] = d]. *)
Definition set_dist_nm (r : t) (d : R) : t :=
  mk (icao24 r) (callsign r) (origin_country r) (time_position r)
     (last_contact r) (lon r) (lat r) (baro_alt r) (on_ground r)
     (velocity_mps r) (track_deg r) (vertical_rate_mps r) (geo_alt r)
     (squawk r) (position_source r) (Some d).
End StateRow.

(** Truth value of a flag that may be [None]. *)
Definition truthy (b : option bool) : bool :=
  match b with
  | Some true => true
  | _ => false
  end.

(** [v or 0] for a float that may be [None]: a zero or a [None] gives 0. *)
Definition or_0 (v : option R) : R :=
  match v with
  | Some x => if Reqb x 0 then 0 else x
  | None => 0
  end.

Definition filter_airborne (rows : list StateRow.t) : list StateRow.t :=
  List.filter
    (fun r => negb (truthy (StateRow.on_ground r))
              && Rgtb (or_0 (StateRow.velocity_mps r)) 10)
    rows.

Definition filter_descending (rows : list StateRow.t) : list StateRow.t :=
  List.filter
    (fun r => match StateRow.vertical_rate_mps r with
              | Some v => Rltb v 0
              | None => false
              end)
    rows.

Definition pyfloat_leb (a b : pyfloat) : bool :=
  match a, b with
  | Fin x, Fin y => Rleb x y
  | _, Inf => true
  | Inf, Fin _ => false
  end.

(** The inner loop of [filter_within_nm_any_threshold]: the running minimum
    [dmin] over the thresholds of a table. *)
Fixpoint nearest_threshold (runways : list RunwayDir) (lat lon : R)
    (dmin : pyfloat) : option pyfloat :=
  match runways with
  | [] => Some dmin
  | rw :: rest =>
      d ← haversine_nm (lat_thr rw) (lon_thr rw) lat lon;
      nearest_threshold rest lat lon
        (if pyfloat_ltb (Fin d) dmin then Fin d else dmin)
  end.

(** The rows kept are the dicts of the input, updated in place with their
    [dist_nm]; the model returns the updated rows. *)
Fixpoint filter_within_nm_any_threshold (rows : list StateRow.t) (max_nm : R)
    : option (list StateRow.t) :=
  match rows with
  | [] => Some []
  | r :: rest =>
      dmin ← nearest_threshold RUNWAYS (StateRow.lat r) (StateRow.lon r) Inf;
      match dmin with
      | Fin d =>
          if Rleb d max_nm then
            out ← filter_within_nm_any_threshold rest max_nm;
            Some (StateRow.set_dist_nm r d :: out)
          else filter_within_nm_any_threshold rest max_nm
      | Inf => filter_within_nm_any_threshold rest max_nm
      end
  end.

(** A float that may be [float("nan")]. *)
Inductive nanfloat : Type :=
  | Num (r : R)
  | NaN.

(** [d.get(key, float("nan"))]. *)
Definition get_or_nan (v : option R) : nanfloat :=
  match v with
  | Some x => Num x
  | None => NaN
  end.

(** What the main loop derives from an assignment before printing it. *)
Record Summary : Type := {
  s_best : option string;
  s_score : R;
  s_conf : string;
  s_dtrack : nanfloat;
  s_x_nm : nanfloat;
  s_d_nm : nanfloat
}.

(** The body of the main loop between the call of the selector and the
    [print]. *)
Definition summarize (assign : Assignment) (r : StateRow.t) : Summary :=
  let best := a_best_id assign in
  let score := a_best_score assign in
  let unknown := {| s_best := best; s_score := score; s_conf := "unknown";
                    s_dtrack := NaN; s_x_nm := NaN;
                    s_d_nm := get_or_nan (StateRow.dist_nm r) |} in
  match best with
  | Some b =>
      match a_debug assign !! b with
      | Some dbg =>
          if Reqb (dict_get (dbg !! "pass") 0) 1 then
            {| s_best := best; s_score := score;
               s_conf := testapi.confidence_from_terms
                           (dict_get (dbg !! "dtrack") 999)
                           (dict_get (dbg !! "x_nm") 999);
               s_dtrack := get_or_nan (dbg !! "dtrack");
               s_x_nm := get_or_nan (dbg !! "x_nm");
               s_d_nm := get_or_nan (dbg !! "d_nm") |}
          else unknown
      | None => unknown
      end
  | None => unknown
  end.

(** ** Remainder facts *)

Lemma py_mod_360_range (x : R) : 0 <= py_mod x 360 < 360.
Proof.
  unfold py_mod.
  destruct (base_Int_part (x / 360)) as [Hlo Hhi].
  replace x with (360 * (x / 360)) at 1 3 by (field; lra).
  split; lra.
Qed.

Lemma py_mod_360_int (x : R) : exists k : Z, py_mod x 360 = x - 360 * IZR k.
Proof. exists (Int_part (x / 360)). reflexivity. Qed.

Lemma py_mod_360_unique (x r : R) (k : Z) :
  0 <= r < 360 -> r = x - 360 * IZR k -> py_mod x 360 = r.
Proof.
  intros Hr Hk.
  destruct (py_mod_360_range x) as [H0 H1].
  destruct (py_mod_360_int x) as [j Hj].
  rewrite Hj in *.
  assert (Hjk : (j = k)%Z).
  { assert (A : IZR (j - k) < 1) by (rewrite minus_IZR; lra).
    assert (B : -1 < IZR (j - k)) by (rewrite minus_IZR; lra).
    apply lt_IZR in A. apply (lt_IZR (-1)) in B. lia. }
  subst j. lra.
Qed.

(** ** [wrap_180] and [ang_diff_deg] *)

(** The remainder is below 360, so the test [x == 180.0] never succeeds. *)
Lemma wrap_180_eq (deg : R) : wrap_180 deg = py_mod (deg + 180) 360 - 180.
Proof.
  unfold wrap_180. cbv zeta.
  destruct (py_mod_360_range (deg + 180)) as [_ H].
  destruct (Req_dec_T _ _) as [E|_]; [lra | reflexivity].
Qed.

Lemma wrap_180_range (deg : R) : -180 <= wrap_180 deg < 180.
Proof.
  rewrite wrap_180_eq.
  destruct (py_mod_360_range (deg + 180)). split; lra.
Qed.

Lemma wrap_180_int (deg : R) : exists k : Z, wrap_180 deg = deg - 360 * IZR k.
Proof.
  rewrite wrap_180_eq.
  destruct (py_mod_360_int (deg + 180)) as [k Hk].
  exists k. lra.
Qed.

Lemma wrap_180_unique (deg r : R) (k : Z) :
  -180 <= r < 180 -> r = deg - 360 * IZR k -> wrap_180 deg = r.
Proof.
  intros Hr Hk. rewrite wrap_180_eq.
  rewrite (py_mod_360_unique (deg + 180) (r + 180) k); lra.
Qed.

Lemma wrap_180_181 : wrap_180 181 = -179.
Proof. apply (wrap_180_unique 181 (-179) 1); lra. Qed.

Lemma wrap_180_neg181 : wrap_180 (-181) = 179.
Proof. apply (wrap_180_unique (-181) 179 (-1)); lra. Qed.

Lemma wrap_180_0 : wrap_180 0 = 0.
Proof. apply (wrap_180_unique 0 0 0); lra. Qed.

(** C2: at the boundary angle 180 the code returns -180, which is outside
    the interval (-180, 180] its docstring promises; the angles 181 and -181
    are wrapped to -179 and 179. *)
Theorem wrap_180_boundary :
  wrap_180 180 = -180 /\ ~ (-180 < wrap_180 180 <= 180) /\
  wrap_180 181 = -179 /\ wrap_180 (-181) = 179.
Proof.
  assert (E : wrap_180 180 = -180)
    by (apply (wrap_180_unique 180 (-180) 1); lra).
  rewrite E. repeat split; [lra | apply wrap_180_181 | apply wrap_180_neg181].
Qed.


Lemma ang_diff_deg_eval (a b r : R) (k : Z) :
  -180 <= r < 180 -> r = a - b - 360 * IZR k -> ang_diff_deg a b = Rabs r.
Proof.
  intros Hr Hk. unfold ang_diff_deg.
  by rewrite (wrap_180_unique (a - b) r k).
Qed.

Lemma ang_diff_deg_same (x : R) : ang_diff_deg x x = 0.
Proof.
  unfold ang_diff_deg.
  replace (x - x) with 0 by lra. rewrite wrap_180_0. apply Rabs_R0.
Qed.


(** ** Boolean comparisons *)

Lemma Rgtb_true (a b : R) : Rgtb a b = true <-> a > b.
Proof. unfold Rgtb. destruct (Rgt_dec a b); split; (done || lra). Qed.

Lemma Rgtb_false (a b : R) : Rgtb a b = false <-> a <= b.
Proof. unfold Rgtb. destruct (Rgt_dec a b); split; (done || lra). Qed.

Lemma Rltb_true (a b : R) : Rltb a b = true <-> a < b.
Proof. unfold Rltb. destruct (Rlt_dec a b); split; (done || lra). Qed.

Lemma Rltb_false (a b : R) : Rltb a b = false <-> b <= a.
Proof. unfold Rltb. destruct (Rlt_dec a b); split; (done || lra). Qed.

Lemma Rleb_true (a b : R) : Rleb a b = true <-> a <= b.
Proof. unfold Rleb. destruct (Rle_dec a b); split; (done || lra). Qed.

Lemma Rleb_false (a b : R) : Rleb a b = false <-> b < a.
Proof. unfold Rleb. destruct (Rle_dec a b); split; (done || lra). Qed.

Lemma Reqb_true (a b : R) : Reqb a b = true <-> a = b.
Proof. unfold Reqb. destruct (Req_dec_T a b); split; (done || lra). Qed.

Lemma Reqb_false (a b : R) : Reqb a b = false <-> a <> b.
Proof. unfold Reqb. destruct (Req_dec_T a b); split; (done || lra). Qed.

(** ** Confidence bucketing *)

(** C9: "high" exactly when |dtrack| <= 10 and |x_nm| <= 0.20, otherwise
    "medium" exactly when |dtrack| <= 20 and |x_nm| <= 0.40, otherwise "low";
    the three sample points fall in the three buckets, and the definition of
    testapi.py agrees with that of geom.py on every input. *)
Theorem confidence_from_terms_spec (dtrack_deg x_nm : R) :
  let high := Rabs dtrack_deg <= 10 /\ Rabs x_nm <= 0.20 in
  let medium := Rabs dtrack_deg <= 20 /\ Rabs x_nm <= 0.40 in
  (confidence_from_terms dtrack_deg x_nm = "high" <-> high) /\
  (confidence_from_terms dtrack_deg x_nm = "medium" <-> ~ high /\ medium) /\
  (confidence_from_terms dtrack_deg x_nm = "low" <-> ~ high /\ ~ medium) /\
  confidence_from_terms 5 0.10 = "high" /\
  confidence_from_terms 15 0.30 = "medium" /\
  confidence_from_terms 25 0.50 = "low" /\
  testapi.confidence_from_terms dtrack_deg x_nm
    = confidence_from_terms dtrack_deg x_nm.
Proof.
  assert (G : forall d x,
    let high := Rabs d <= 10 /\ Rabs x <= 0.20 in
    let medium := Rabs d <= 20 /\ Rabs x <= 0.40 in
    (confidence_from_terms d x = "high" <-> high) /\
    (confidence_from_terms d x = "medium" <-> ~ high /\ medium) /\
    (confidence_from_terms d x = "low" <-> ~ high /\ ~ medium)).
  { intros d x. unfold confidence_from_terms. cbv zeta.
    destruct (Rleb (Rabs d) 10) eqn:E1; destruct (Rleb (Rabs x) 0.20) eqn:E2;
      destruct (Rleb (Rabs d) 20) eqn:E3; destruct (Rleb (Rabs x) 0.40) eqn:E4;
      cbn [andb];
      try apply Rleb_true in E1; try apply Rleb_false in E1;
      try apply Rleb_true in E2; try apply Rleb_false in E2;
      try apply Rleb_true in E3; try apply Rleb_false in E3;
      try apply Rleb_true in E4; try apply Rleb_false in E4;
      repeat split; intros; try discriminate; try lra;
      repeat match goal with H : _ /\ _ |- _ => destruct H end;
      try lra; try (exfalso; lra);
      try (intros [? ?]; lra). }
  cbv zeta. destruct (G dtrack_deg x_nm) as (Gh & Gm & Gl).
  split; [exact Gh|]. split; [exact Gm|]. split; [exact Gl|].
  split; [|split; [|split]].
  - apply (G 5 0.10). rewrite !Rabs_pos_eq; lra.
  - apply (G 15 0.30). rewrite !Rabs_pos_eq; lra.
  - apply (G 25 0.50). rewrite !Rabs_pos_eq; lra.
  - reflexivity.
Qed.

(** ** Runway frame *)

Lemma hypot_sqr (x y : R) : hypot x y * hypot x y = x * x + y * y.
Proof. unfold hypot. apply sqrt_sqrt. nra. Qed.

Lemma hypot_nonneg (x y : R) : 0 <= hypot x y.
Proof. apply sqrt_pos. Qed.

(** C10: the runway unit vectors are orthonormal for every course, hence
    cross-track and along-track are the legs of a right triangle whose
    hypotenuse is the straight-line distance, which is non-negative. *)
Theorem cross_along_nm_pythagoras (ac_lat ac_lon : R) (rw : RunwayDir) :
  let '((a_e, a_n), (r_e, r_n)) := runway_unit_vectors (course_deg rw) in
  let '(x_nm, s_nm, d_nm) := cross_along_nm ac_lat ac_lon rw in
  a_e * r_e + a_n * r_n = 0 /\
  a_e * a_e + a_n * a_n = 1 /\
  r_e * r_e + r_n * r_n = 1 /\
  x_nm * x_nm + s_nm * s_nm = d_nm * d_nm /\
  0 <= d_nm.
Proof.
  unfold cross_along_nm, runway_unit_vectors, en_from_threshold. cbv zeta.
  set (th := radians (course_deg rw)).
  set (e := radians (ac_lon - lon_thr rw) * cos (radians (lat_thr rw)) * R_EARTH_M).
  set (n := radians (ac_lat - lat_thr rw) * R_EARTH_M).
  pose proof (sin2_cos2 th) as Hsc. unfold Rsqr in Hsc.
  pose proof (hypot_sqr e n) as Hh.
  pose proof (hypot_nonneg e n) as Hp.
  unfold NM_PER_M.
  repeat split; nra.
Qed.

(** ** Scoring *)

Ltac run_result :=
  cbn [mbind result_bind subscript dict_get negb andb orb].

Ltac run_result_in H :=
  cbn [mbind result_bind subscript dict_get negb andb orb] in H.

Lemma py_div_Ok (a b : R) : b <> 0 -> py_div a b = Ok (a / b).
Proof. intros H. unfold py_div. destruct (Req_dec_T b 0); [done | reflexivity]. Qed.

Lemma py_div_0 (a : R) : py_div a 0 = Raise ZeroDivisionError.
Proof. unfold py_div. destruct (Req_dec_T 0 0); [reflexivity | lra]. Qed.

Lemma lookup_gate_terms (dtrack x_nm d_nm : R) :
  gate_terms dtrack x_nm d_nm !! "dtrack" = Some dtrack /\
  gate_terms dtrack x_nm d_nm !! "x_nm" = Some x_nm /\
  gate_terms dtrack x_nm d_nm !! "d_nm" = Some d_nm /\
  gate_terms dtrack x_nm d_nm !! "pass" = None /\
  gate_terms dtrack x_nm d_nm !! "score" = None.
Proof. unfold gate_terms. repeat split; by simplify_map_eq. Qed.

Lemma lookup_pass_terms (dtrack x_nm s_nm d_nm T X : R) :
  let m := pass_terms dtrack x_nm s_nm d_nm T X in
  m !! "dtrack" = Some dtrack /\ m !! "x_nm" = Some x_nm /\
  m !! "s_nm" = Some s_nm /\ m !! "d_nm" = Some d_nm /\
  m !! "T" = Some T /\ m !! "X" = Some X /\
  m !! "pass" = None /\ m !! "score" = None.
Proof. unfold pass_terms. repeat split; by simplify_map_eq. Qed.

(** The first gate: only [track_gate_deg] is read. *)
Lemma runway_fit_score_track_gate ac rw params (g_t : R) :
  track_gate_deg params = Some g_t ->
  ang_diff_deg (track_deg ac) (course_deg rw) > g_t ->
  runway_fit_score ac rw params
  = Ok (false, 0,
        gate_terms (ang_diff_deg (track_deg ac) (course_deg rw))
          (cross_along_nm (lat ac) (lon ac) rw).1.1
          (cross_along_nm (lat ac) (lon ac) rw).2).
Proof.
  intros Hg Hd. unfold runway_fit_score.
  destruct (cross_along_nm _ _ _) as [[x_nm s_nm] d_nm].
  rewrite Hg. run_result.
  apply Rgtb_true in Hd. by rewrite Hd.
Qed.

(** The second gate. *)
Lemma runway_fit_score_xtrack_gate ac rw params (g_t g_x : R) :
  track_gate_deg params = Some g_t ->
  xtrack_gate_nm params = Some g_x ->
  ang_diff_deg (track_deg ac) (course_deg rw) <= g_t ->
  Rabs (cross_along_nm (lat ac) (lon ac) rw).1.1 > g_x ->
  runway_fit_score ac rw params
  = Ok (false, 0,
        gate_terms (ang_diff_deg (track_deg ac) (course_deg rw))
          (cross_along_nm (lat ac) (lon ac) rw).1.1
          (cross_along_nm (lat ac) (lon ac) rw).2).
Proof.
  intros Hg Hx Hd Hc. unfold runway_fit_score.
  destruct (cross_along_nm _ _ _) as [[x_nm s_nm] d_nm]. cbn [fst snd] in *.
  rewrite Hg, Hx. run_result.
  apply Rgtb_false in Hd. rewrite Hd.
  apply Rgtb_true in Hc. by rewrite Hc.
Qed.

(** A missing [xtrack_gate_nm] is a [KeyError] as soon as the first gate
    lets the candidate through. *)
Lemma runway_fit_score_no_xtrack_gate ac rw params (g_t : R) :
  track_gate_deg params = Some g_t ->
  xtrack_gate_nm params = None ->
  ang_diff_deg (track_deg ac) (course_deg rw) <= g_t ->
  runway_fit_score ac rw params = Raise (KeyError "xtrack_gate_nm").
Proof.
  intros Hg Hx Hd. unfold runway_fit_score.
  destruct (cross_along_nm _ _ _) as [[x_nm s_nm] d_nm].
  rewrite Hg, Hx. run_result.
  apply Rgtb_false in Hd. by rewrite Hd.
Qed.

(** C6: when either hard gate is exceeded the function returns
    passes = False and score = 0.0 with the diagnostic terms dtrack, x_nm and
    d_nm; a track-gate failure does so whatever the cross-track gate is. *)
Theorem runway_fit_score_gate_failure ac rw params (g_t : R) :
  let dtrack := ang_diff_deg (track_deg ac) (course_deg rw) in
  let x_nm := (cross_along_nm (lat ac) (lon ac) rw).1.1 in
  let d_nm := (cross_along_nm (lat ac) (lon ac) rw).2 in
  track_gate_deg params = Some g_t ->
  dtrack > g_t \/
    (exists g_x : R, xtrack_gate_nm params = Some g_x /\ Rabs x_nm > g_x) ->
  exists terms : gmap string R,
    runway_fit_score ac rw params = Ok (false, 0, terms) /\
    terms !! "dtrack" = Some dtrack /\
    terms !! "x_nm" = Some x_nm /\
    terms !! "d_nm" = Some d_nm.
Proof.
  intros dtrack x_nm d_nm Hg Hfail.
  exists (gate_terms dtrack x_nm d_nm).
  split; [| by destruct (lookup_gate_terms dtrack x_nm d_nm) as (?&?&?&_)].
  destruct (Rgt_dec dtrack g_t) as [Hd|Hd].
  - by apply (runway_fit_score_track_gate ac rw params g_t).
  - destruct Hfail as [Hd'|(g_x & Hx & Hc)]; [done|].
    apply (runway_fit_score_xtrack_gate ac rw params g_t g_x); try done.
    fold dtrack. lra.
Qed.

(** The hard gate rejection scenario: track 25 against course 0. *)
Lemma runway_fit_score_gate_failure_witness :
  exists terms : gmap string R,
    runway_fit_score ac_off_track rw_north full_params = Ok (false, 0, terms) /\
    terms !! "dtrack"
      = Some (ang_diff_deg (track_deg ac_off_track) (course_deg rw_north)) /\
    terms !! "x_nm"
      = Some (cross_along_nm (lat ac_off_track) (lon ac_off_track) rw_north).1.1 /\
    terms !! "d_nm"
      = Some (cross_along_nm (lat ac_off_track) (lon ac_off_track) rw_north).2.
Proof.
  apply (runway_fit_score_gate_failure ac_off_track rw_north full_params 20).
  - reflexivity.
  - left. cbn [ac_off_track rw_north mkAircraft mkRunway track_deg course_deg].
    rewrite (ang_diff_deg_eval 25 0 25 0) by lra.
    rewrite Rabs_pos_eq; lra.
Defined.

Lemma D_span_pos (v : R) : 0 < Rmax 1e-6 v.
Proof. pose proof (Rmax_l 1e-6 v). lra. Qed.

Lemma clip_unit (s : R) : 0 <= Rmin 1 (Rmax 0 s) <= 1.
Proof.
  split; [| apply Rmin_l].
  apply Rmin_glb; [lra | apply Rmax_l].
Qed.

Lemma clip_unit_id (s : R) : 0 <= s <= 1 -> Rmin 1 (Rmax 0 s) = s.
Proof. intros H. rewrite Rmax_right, Rmin_right; lra. Qed.

(** The passing branch without the distance term. *)
Lemma runway_fit_score_pass_base ac rw params (g_t g_x wt wx : R) :
  let dtrack := ang_diff_deg (track_deg ac) (course_deg rw) in
  let c := cross_along_nm (lat ac) (lon ac) rw in
  let T := Rmax 0 (1 - dtrack / g_t) in
  let X := Rmax 0 (1 - Rabs c.1.1 / g_x) in
  track_gate_deg params = Some g_t ->
  xtrack_gate_nm params = Some g_x ->
  w_track params = Some wt ->
  w_xtrack params = Some wx ->
  dict_get (use_distance params) false = false ->
  dtrack <= g_t -> Rabs c.1.1 <= g_x -> g_t <> 0 -> g_x <> 0 ->
  runway_fit_score ac rw params
  = Ok (true, Rmin 1 (Rmax 0 (wt * T + wx * X)),
        pass_terms dtrack c.1.1 c.1.2 c.2 T X).
Proof.
  intros dtrack c T X Hg Hx Hwt Hwx Hud Hd Hc Hg0 Hx0.
  subst T X. unfold runway_fit_score. fold dtrack. fold c.
  destruct c as [[x_nm s_nm] d_nm]. cbn [fst snd] in *.
  rewrite Hg, Hx, Hwt, Hwx, Hud. run_result.
  apply Rgtb_false in Hd. rewrite Hd.
  apply Rgtb_false in Hc. rewrite Hc.
  rewrite !py_div_Ok by done. run_result. reflexivity.
Qed.

(** The passing branch with the distance term. *)
Lemma runway_fit_score_pass_dist ac rw params (g_t g_x wt wx wd : R) :
  let dtrack := ang_diff_deg (track_deg ac) (course_deg rw) in
  let c := cross_along_nm (lat ac) (lon ac) rw in
  let T := Rmax 0 (1 - dtrack / g_t) in
  let X := Rmax 0 (1 - Rabs c.1.1 / g_x) in
  let D := Rmax 0 (1 - Rabs (c.2 - dict_get (d_peak_nm params) 8)
                       / Rmax 1e-6 (dict_get (d_span_nm params) 8)) in
  track_gate_deg params = Some g_t ->
  xtrack_gate_nm params = Some g_x ->
  w_track params = Some wt ->
  w_xtrack params = Some wx ->
  dict_get (use_distance params) false = true ->
  w_dist params = Some wd ->
  dtrack <= g_t -> Rabs c.1.1 <= g_x -> g_t <> 0 -> g_x <> 0 ->
  runway_fit_score ac rw params
  = Ok (true, Rmin 1 (Rmax 0 ((1 - wd) * (wt * T + wx * X) + wd * D)),
        pass_terms dtrack c.1.1 c.1.2 c.2 T X).
Proof.
  intros dtrack c T X D Hg Hx Hwt Hwx Hud Hwd Hd Hc Hg0 Hx0.
  subst T X D. unfold runway_fit_score. fold dtrack. fold c.
  destruct c as [[x_nm s_nm] d_nm]. cbn [fst snd] in *.
  rewrite Hg, Hx, Hwt, Hwx, Hud, Hwd. run_result.
  apply Rgtb_false in Hd. rewrite Hd.
  apply Rgtb_false in Hc. rewrite Hc.
  pose proof (D_span_pos (dict_get (d_span_nm params) 8)) as Hspan.
  rewrite !py_div_Ok by (done || lra).
  run_result. reflexivity.
Qed.

(** Whatever the parameters, a returned score is in [0,1], and is 0 when
    the gates fail; a returned triple always carries dtrack, x_nm and d_nm. *)
Lemma runway_fit_score_Ok_inv ac rw params passes score terms :
  runway_fit_score ac rw params = Ok (passes, score, terms) ->
  0 <= score <= 1 /\ (passes = false -> score = 0) /\
  terms !! "dtrack" = Some (ang_diff_deg (track_deg ac) (course_deg rw)) /\
  terms !! "x_nm" = Some (cross_along_nm (lat ac) (lon ac) rw).1.1 /\
  terms !! "d_nm" = Some (cross_along_nm (lat ac) (lon ac) rw).2 /\
  terms !! "pass" = None /\ terms !! "score" = None.
Proof.
  unfold runway_fit_score.
  destruct (cross_along_nm _ _ _) as [[x_nm s_nm] d_nm]. cbn [fst snd].
  set (dtrack := ang_diff_deg _ _).
  pose proof (lookup_gate_terms dtrack x_nm d_nm) as (G1 & G2 & G3 & G4 & G5).
  intros H.
  repeat match type of H with
  | context [subscript _ ?o] => destruct o; run_result_in H
  | context [py_div ?a ?b] => destruct (py_div a b); run_result_in H
  | context [Rgtb ?a ?b] => destruct (Rgtb a b)
  | context [dict_get ?o false] => destruct (dict_get o false)
  | Raise _ = Ok _ => discriminate H
  | _ => progress (run_result_in H)
  end;
  try discriminate H;
  inversion H; subst; clear H;
  try (split; [lra | by repeat split]);
  (split; [apply clip_unit |]; split; [done |];
   match goal with |- context [pass_terms ?a ?b ?c ?d ?e ?f] =>
     pose proof (lookup_pass_terms a b c d e f) as (P1 & P2 & _ & P4 & _ & _ & P7 & P8)
   end; by repeat split).
Qed.

(** With every key the code subscripts present and both gates non-zero,
    the function returns; [w_dist] is subscripted only under
    [use_distance]. *)
Lemma runway_fit_score_returns ac rw params (g_t g_x wt wx : R) :
  track_gate_deg params = Some g_t ->
  xtrack_gate_nm params = Some g_x ->
  w_track params = Some wt ->
  w_xtrack params = Some wx ->
  (dict_get (use_distance params) false = true -> is_Some (w_dist params)) ->
  g_t <> 0 -> g_x <> 0 ->
  exists passes score terms,
    runway_fit_score ac rw params = Ok (passes, score, terms).
Proof.
  intros Hg Hx Hwt Hwx Hwd Hg0 Hx0.
  destruct (Rgt_dec (ang_diff_deg (track_deg ac) (course_deg rw)) g_t) as [Hd|Hd].
  { eexists _, _, _.
    by apply (runway_fit_score_track_gate ac rw params g_t). }
  destruct (Rgt_dec (Rabs (cross_along_nm (lat ac) (lon ac) rw).1.1) g_x) as [Hc|Hc].
  { eexists _, _, _.
    apply (runway_fit_score_xtrack_gate ac rw params g_t g_x); try done. lra. }
  destruct (dict_get (use_distance params) false) eqn:Hud.
  - destruct Hwd as [wd Hwd]; [done|]. eexists _, _, _.
    apply (runway_fit_score_pass_dist ac rw params g_t g_x wt wx wd);
      try done; lra.
  - eexists _, _, _.
    apply (runway_fit_score_pass_base ac rw params g_t g_x wt wx);
      try done; lra.
Qed.

(** C4: for every aircraft, runway and parameters, whatever the weights,
    a score returned by runway_fit_score lies in [0,1] and is exactly 0 on a
    gate failure; and the function does return whenever the keys it
    subscripts are present and the gates are non-zero. *)
Theorem runway_fit_score_in_unit_interval ac rw params :
  (forall passes score terms,
     runway_fit_score ac rw params = Ok (passes, score, terms) ->
     0 <= score <= 1 /\ (passes = false -> score = 0)) /\
  (forall g_t g_x wt wx : R,
     track_gate_deg params = Some g_t ->
     xtrack_gate_nm params = Some g_x ->
     w_track params = Some wt ->
     w_xtrack params = Some wx ->
     (dict_get (use_distance params) false = true -> is_Some (w_dist params)) ->
     g_t <> 0 -> g_x <> 0 ->
     exists passes score terms,
       runway_fit_score ac rw params = Ok (passes, score, terms) /\
       0 <= score <= 1 /\ (passes = false -> score = 0)).
Proof.
  split.
  - intros passes score terms H.
    apply runway_fit_score_Ok_inv in H as (? & ? & _). by split.
  - intros g_t g_x wt wx Hg Hx Hwt Hwx Hwd Hg0 Hx0.
    destruct (runway_fit_score_returns ac rw params g_t g_x wt wx)
      as (passes & score & terms & H); try done.
    exists passes, score, terms. split; [done|].
    apply runway_fit_score_Ok_inv in H as (? & ? & _). by split.
Qed.

(** The bound at weights that sum to 2, on the centerline scenario. *)
Lemma runway_fit_score_in_unit_interval_witness :
  exists passes score terms,
    runway_fit_score ac_on_centerline rw_north
      {| track_gate_deg := Some 20; xtrack_gate_nm := Some 0.3;
         w_track := Some 1; w_xtrack := Some 1; use_distance := Some false;
         d_peak_nm := None; d_span_nm := None; w_dist := None |}
    = Ok (passes, score, terms) /\
    0 <= score <= 1 /\ (passes = false -> score = 0).
Proof.
  eapply (proj2 (runway_fit_score_in_unit_interval _ _ _)); cbn;
    try reflexivity; try discriminate; lra.
Defined.

(** ** The on-course, on-centerline scenario *)

Lemma PI_bounds : 3.1415 < PI < 3.1421.
Proof.
  pose proof (PI_2_3_7_ineq 1) as [Hlo Hhi].
  unfold sum_f_R0, tg_alt, PI_2_3_7_tg, Ratan_seq in Hlo, Hhi.
  simpl in Hlo, Hhi.
  split; lra.
Qed.

Lemma radians_0 : radians 0 = 0.
Proof. unfold radians. ring. Qed.

Lemma hypot_0_l (y : R) : 0 <= y -> hypot 0 y = y.
Proof.
  intros Hy. unfold hypot.
  replace (0 * 0 + y * y) with (y * y) by ring.
  by apply sqrt_square.
Qed.

(** North of a threshold at (0,0), seen from a runway of course 0: no
    cross-track, along-track equal to the distance. *)
Lemma cross_along_nm_due_north (ac_lat : R) (rw : RunwayDir) :
  lat_thr rw = 0 -> lon_thr rw = 0 -> course_deg rw = 0 -> 0 <= ac_lat ->
  cross_along_nm ac_lat 0 rw
  = (0, radians ac_lat * R_EARTH_M * NM_PER_M,
     radians ac_lat * R_EARTH_M * NM_PER_M).
Proof.
  intros Hla Hlo Hco Hlat.
  unfold cross_along_nm, en_from_threshold, runway_unit_vectors.
  rewrite Hla, Hlo, Hco.
  replace (0 - 0) with 0 by ring.
  replace (ac_lat - 0) with ac_lat by ring.
  rewrite radians_0, sin_0, cos_0.
  replace (0 * 1 * R_EARTH_M) with 0 by ring.
  rewrite hypot_0_l.
  - repeat f_equal; ring.
  - pose proof PI_bounds. unfold radians, R_EARTH_M. nra.
Qed.

(** C7: threshold at (0,0), course 0, aircraft at (0.01, 0) with track 0,
    all parameters given (gates 20 and 0.3, weights 0.45, 0.45 and 0.10,
    distance window 4 +- 6): the candidate passes with x_nm = 0, d_nm within
    1% of 0.60, dtrack = 0, T = X = 1, base score 0.90, distance term within
    0.0005 of 0.4335 and final score within 0.01 of 0.853. *)
Theorem scenario_on_centerline :
  let dtrack :=
    ang_diff_deg (track_deg ac_on_centerline) (course_deg rw_north) in
  let c :=
    cross_along_nm (lat ac_on_centerline) (lon ac_on_centerline) rw_north in
  let x_nm := c.1.1 in
  let d_nm := c.2 in
  let base := 0.45 * 1 + 0.45 * 1 in
  let D := Rmax 0 (1 - Rabs (d_nm - 4) / 6) in
  x_nm = 0 /\ Rabs (d_nm - 0.60) <= 0.01 * 0.60 /\ dtrack = 0 /\
  base = 0.90 /\ Rabs (D - 0.4335) <= 0.0005 /\
  exists (score : R) (terms : gmap string R),
    runway_fit_score ac_on_centerline rw_north full_params
      = Ok (true, score, terms) /\
    terms !! "T" = Some 1 /\ terms !! "X" = Some 1 /\
    score = Rmin 1 (Rmax 0 ((1 - 0.10) * base + 0.10 * D)) /\
    Rabs (score - 0.853) <= 0.01.
Proof.
  intros dtrack c x_nm d_nm base D.
  assert (Hdt : dtrack = 0) by apply ang_diff_deg_same.
  assert (Hc : c = (0, radians 0.01 * R_EARTH_M * NM_PER_M,
                    radians 0.01 * R_EARTH_M * NM_PER_M)).
  { subst c. cbn [ac_on_centerline mkAircraft lat lon].
    apply cross_along_nm_due_north; [reflexivity .. | lra]. }
  assert (Hx : x_nm = 0) by (subst x_nm; by rewrite Hc).
  assert (Hd : 0.6003 < d_nm < 0.6006).
  { subst d_nm. rewrite Hc. cbn [snd].
    pose proof PI_bounds. unfold radians, R_EARTH_M, NM_PER_M. lra. }
  assert (HD : D = (2 + d_nm) / 6).
  { subst D. rewrite Rabs_left by lra. rewrite Rmax_right; lra. }
  assert (Hscore : Rmin 1 (Rmax 0 ((1 - 0.10) * base + 0.10 * D))
                   = 0.81 + 0.10 * D).
  { rewrite clip_unit_id; subst base; lra. }
  split; [done|]. split; [apply Rabs_le; lra|]. split; [done|].
  split; [subst base; lra|]. split; [rewrite HD; apply Rabs_le; lra|].
  exists (Rmin 1 (Rmax 0 ((1 - 0.10) * base + 0.10 * D))),
    (pass_terms dtrack c.1.1 c.1.2 c.2 1 1).
  split; [|split; [|split; [|split]]].
  - rewrite (runway_fit_score_pass_dist ac_on_centerline rw_north full_params
               20 0.3 0.45 0.45 0.10); try reflexivity; fold dtrack c;
      cbn [full_params d_peak_nm d_span_nm dict_get];
      fold x_nm d_nm; rewrite ?Hdt, ?Hx, ?Rabs_R0; try lra.
    assert (E1 : Rmax 0 (1 - 0 / 20) = 1) by (rewrite Rmax_right; lra).
    assert (E2 : Rmax 0 (1 - 0 / 0.3) = 1) by (rewrite Rmax_right; lra).
    assert (E3 : Rmax 1e-6 6 = 6) by (rewrite Rmax_right; lra).
    rewrite E1, E2, E3. reflexivity.
  - by destruct (lookup_pass_terms dtrack c.1.1 c.1.2 c.2 1 1)
      as (_ & _ & _ & _ & ? & _).
  - by destruct (lookup_pass_terms dtrack c.1.1 c.1.2 c.2 1 1)
      as (_ & _ & _ & _ & _ & ? & _).
  - reflexivity.
  - rewrite Hscore, HD. apply Rabs_le. lra.
Qed.

(** ** Missing keys and zero gates *)

(** [DEFAULT_PARAMS] has no [xtrack_gate_nm]: every candidate within the
    track gate raises. *)
Lemma runway_fit_score_DEFAULT_PARAMS ac rw :
  ang_diff_deg (track_deg ac) (course_deg rw) <= 20 ->
  runway_fit_score ac rw DEFAULT_PARAMS = Raise (KeyError "xtrack_gate_nm").
Proof.
  intros H.
  by apply (runway_fit_score_no_xtrack_gate ac rw DEFAULT_PARAMS 20).
Qed.

Lemma loop_cons_Raise ac params rw rest st (e : exn) :
  runway_fit_score ac rw params = Raise e ->
  loop ac params (rw :: rest) st = Raise e.
Proof.
  intros H. cbn [loop]. unfold loop_body. rewrite H. reflexivity.
Qed.

(** C1: called with the process-wide default parameters, the scoring
    function raises KeyError on the spec's own on-centerline scenario, and so
    does the selector, also over the ICN table for an aircraft on the course
    of runway 33L. *)
Theorem DEFAULT_PARAMS_KeyError :
  runway_fit_score ac_on_centerline rw_north DEFAULT_PARAMS
    = Raise (KeyError "xtrack_gate_nm") /\
  assign_runway_for_aircraft ac_on_centerline [rw_north] DEFAULT_PARAMS
    = Raise (KeyError "xtrack_gate_nm") /\
  assign_runway_for_aircraft ac_final_33 RUNWAYS DEFAULT_PARAMS
    = Raise (KeyError "xtrack_gate_nm").
Proof.
  assert (H1 : runway_fit_score ac_on_centerline rw_north DEFAULT_PARAMS
               = Raise (KeyError "xtrack_gate_nm")).
  { apply runway_fit_score_DEFAULT_PARAMS.
    cbn [ac_on_centerline rw_north mkAircraft mkRunway track_deg course_deg].
    rewrite ang_diff_deg_same. lra. }
  split; [exact H1|]. split.
  - unfold assign_runway_for_aircraft.
    by rewrite (loop_cons_Raise _ _ _ _ _ _ H1).
  - unfold assign_runway_for_aircraft, RUNWAYS.
    rewrite (loop_cons_Raise _ _ _ _ _ (KeyError "xtrack_gate_nm")); [done|].
    apply runway_fit_score_DEFAULT_PARAMS.
    cbn [ac_final_33 mkAircraft mkRunway track_deg course_deg].
    rewrite ang_diff_deg_same. lra.
Qed.

(** A gate of zero is a second way to fail: the aligned aircraft passes the
    gate and the normalisation divides by it. *)
Lemma zero_gate_ZeroDivisionError :
  runway_fit_score ac_on_centerline rw_north zero_gate_params
    = Raise ZeroDivisionError.
Proof.
  unfold runway_fit_score.
  cbn [ac_on_centerline rw_north mkAircraft mkRunway track_deg course_deg
       lat lon].
  rewrite ang_diff_deg_same.
  change (mkRunway "36" 0 0 0 0) with rw_north.
  rewrite (cross_along_nm_due_north 0.01 rw_north); [| reflexivity .. | lra].
  cbn [zero_gate_params track_gate_deg xtrack_gate_nm]. run_result.
  replace (Rgtb 0 0) with false by (symmetry; apply Rgtb_false; lra).
  replace (Rgtb (Rabs 0) 0.3) with false
    by (symmetry; apply Rgtb_false; rewrite Rabs_R0; lra).
  rewrite py_div_0. reflexivity.
Qed.

(** ** The selection loop *)

Section selection.

Variable ac : AircraftState.
Variable params : ScoreParams.

(** One iteration, once the candidate has been scored. *)
Lemma loop_body_eq (st : locals) (rw : RunwayDir) passes score terms :
  runway_fit_score ac rw params = Ok (passes, score, terms) ->
  let tiebreak :=
    (Fin (Rabs (cross_along_nm (lat ac) (lon ac) rw).1.1),
     Fin (ang_diff_deg (track_deg ac) (course_deg rw)),
     Fin (cross_along_nm (lat ac) (lon ac) rw).2) in
  let results' :=
    <[rw_id rw := debug_entry passes score terms]> (results st) in
  loop_body ac params st rw
  = Ok (if passes
           && (Rgtb score (best_score st)
               || (isclose score (best_score st)
                   && tuple_ltb tiebreak (best_tiebreak st)))
        then {| results := results'; best_id := Some (rw_id rw);
                best_score := score; best_tiebreak := tiebreak |}
        else {| results := results'; best_id := best_id st;
                best_score := best_score st;
                best_tiebreak := best_tiebreak st |}).
Proof.
  intros H tiebreak results'.
  destruct (runway_fit_score_Ok_inv _ _ _ _ _ _ H)
    as (_ & _ & Hdt & Hx & Hd & _).
  unfold loop_body. rewrite H. run_result.
  destruct passes; run_result; [| reflexivity].
  rewrite Hx, Hdt, Hd. run_result.
  cbn [results best_id best_score best_tiebreak].
  fold tiebreak. fold results'.
  by destruct (Rgtb score (best_score st)
               || (isclose score (best_score st)
                   && tuple_ltb tiebreak (best_tiebreak st))).
Qed.

Lemma loop_body_results (st : locals) (rw : RunwayDir) passes score terms :
  runway_fit_score ac rw params = Ok (passes, score, terms) ->
  exists st', loop_body ac params st rw = Ok st' /\
    results st' = <[rw_id rw := debug_entry passes score terms]> (results st) /\
    (passes = false ->
     best_id st' = best_id st /\ best_score st' = best_score st).
Proof.
  intros H. rewrite (loop_body_eq st rw _ _ _ H).
  eexists. split; [reflexivity|].
  destruct passes; cbn [andb].
  - split; [|done]. by destruct (_ || _).
  - by split.
Qed.

(** The loop returns when every candidate is scored, and its [results]
    dict is keyed by the runway ids. *)
Lemma loop_spec (runways : list RunwayDir) : forall st : locals,
  (forall rw, rw ∈ runways -> exists r, runway_fit_score ac rw params = Ok r) ->
  exists st', loop ac params runways st = Ok st' /\
    dom (results st') = dom (results st) ∪ list_to_set (rw_id <$> runways) /\
    (forall rw passes score terms,
       rw ∈ runways -> NoDup (rw_id <$> runways) ->
       runway_fit_score ac rw params = Ok (passes, score, terms) ->
       results st' !! rw_id rw = Some (debug_entry passes score terms)) /\
    (forall k, k ∉ rw_id <$> runways -> results st' !! k = results st !! k) /\
    ((forall rw passes score terms,
        rw ∈ runways ->
        runway_fit_score ac rw params = Ok (passes, score, terms) ->
        passes = false) ->
     best_id st' = best_id st /\ best_score st' = best_score st).
Proof.
  induction runways as [|rw rest IH]; intros st Hall.
  - exists st. cbn [loop fmap list_fmap]. split; [done|].
    split; [by rewrite list_to_set_nil, (right_id_L ∅ (∪))|]. split; [|done].
    intros rw ? ? ? Hin. by apply elem_of_nil in Hin.
  - destruct (Hall rw) as ([[p s] t] & Hrw); [by left|].
    destruct (loop_body_results st rw p s t Hrw) as (st1 & Hb & Hres & Hbest).
    destruct (IH st1) as (st' & Hl & Hdom & Hent & Hother & Hfail).
    { intros rw' Hin. apply Hall. by right. }
    exists st'. cbn [loop]. rewrite Hb. run_result.
    split; [exact Hl|].
    rewrite fmap_cons.
    split; [|split; [|split]].
    + rewrite Hdom, Hres, dom_insert_L, list_to_set_cons.
      by rewrite (comm_L (∪) {[rw_id rw]} (dom (results st))), (assoc_L (∪)).
    + intros rw' p' s' t' Hin Hnd Hrw'.
      apply NoDup_cons in Hnd as [Hnotin Hnd].
      apply elem_of_cons in Hin as [->|Hin].
      * rewrite (Hother _ Hnotin), Hres, lookup_insert_eq.
        rewrite Hrw in Hrw'. by inversion Hrw'.
      * by apply Hent.
    + intros k Hk. apply not_elem_of_cons in Hk as [Hne Hk].
      rewrite (Hother _ Hk), Hres. by apply lookup_insert_ne.
    + intros Hnone.
      destruct Hfail as [-> ->].
      { intros rw' ? ? ? Hin. apply Hnone. by right. }
      apply Hbest. apply (Hnone rw p s t); [by left | done].
Qed.

End selection.

(** ** The debug mapping and the no-candidate outcome *)

Lemma lookup_debug_entry (passes : bool) (score : R) (terms : gmap string R) :
  terms !! "pass" = None -> terms !! "score" = None ->
  debug_entry passes score terms !! "pass" = Some (float_of_bool passes) /\
  debug_entry passes score terms !! "score" = Some score /\
  terms ⊆ debug_entry passes score terms.
Proof.
  intros Hp Hs. unfold debug_entry.
  split; [|split].
  - rewrite lookup_union_r by done. by simplify_map_eq.
  - rewrite lookup_union_r by done. by simplify_map_eq.
  - apply map_union_subseteq_l.
Qed.

(** C5, as the code has it: when every direction is scored without an
    exception, the selector returns; the keys of debug are exactly the ids of
    the list, so there is one entry per distinct id, and one per direction
    when the ids are pairwise distinct, each holding the direction's pass
    flag, score (0 on a failure) and diagnostic terms; and when no direction
    passes, best_id is none and best_score is 0. *)
Theorem assign_debug_and_no_candidate ac runways params :
  (forall rw, rw ∈ runways ->
     exists r, runway_fit_score ac rw params = Ok r) ->
  exists res : Assignment,
    assign_runway_for_aircraft ac runways params = Ok res /\
    dom (a_debug res) = list_to_set (rw_id <$> runways) /\
    (NoDup (rw_id <$> runways) ->
     size (a_debug res) = length runways /\
     forall rw passes score terms,
       rw ∈ runways ->
       runway_fit_score ac rw params = Ok (passes, score, terms) ->
       exists entry : gmap string R,
         a_debug res !! rw_id rw = Some entry /\
         entry !! "pass" = Some (float_of_bool passes) /\
         entry !! "score" = Some score /\
         (passes = false -> score = 0) /\
         terms ⊆ entry) /\
    ((forall rw passes score terms,
        rw ∈ runways ->
        runway_fit_score ac rw params = Ok (passes, score, terms) ->
        passes = false) ->
     a_best_id res = None /\ a_best_score res = 0).
Proof.
  intros Hall.
  destruct (loop_spec ac params runways locals_init Hall)
    as (st & Hl & Hdom & Hent & _ & Hfail).
  unfold assign_runway_for_aircraft. rewrite Hl. run_result.
  eexists. split; [reflexivity|].
  cbn [a_debug a_best_id a_best_score].
  assert (Hdom' : dom (results st) = list_to_set (rw_id <$> runways)).
  { rewrite Hdom. cbn [locals_init results].
    by rewrite dom_empty_L, (left_id_L ∅ (∪)). }
  split; [exact Hdom'|]. split.
  - intros Hnd. split.
    + rewrite <- size_dom, Hdom', size_list_to_set by done.
      by rewrite length_fmap.
    + intros rw passes score terms Hin Hrw.
      exists (debug_entry passes score terms).
      split; [by apply Hent|].
      destruct (runway_fit_score_Ok_inv _ _ _ _ _ _ Hrw)
        as (_ & Hzero & _ & _ & _ & Hp & Hs).
      destruct (lookup_debug_entry passes score terms Hp Hs) as (? & ? & ?).
      by repeat split.
  - intros Hnone. by destruct (Hfail Hnone) as [-> ->].
Qed.

(** The eastbound aircraft against the ICN table, with the parameters of
    the snapshot runner: every direction is scored. *)
Lemma assign_debug_and_no_candidate_witness :
  exists res : Assignment,
    assign_runway_for_aircraft ac_eastbound RUNWAYS testapi.PARAMS = Ok res /\
    dom (a_debug res) = list_to_set (rw_id <$> RUNWAYS) /\
    (NoDup (rw_id <$> RUNWAYS) ->
     size (a_debug res) = length RUNWAYS /\
     forall rw passes score terms,
       rw ∈ RUNWAYS ->
       runway_fit_score ac_eastbound rw testapi.PARAMS
         = Ok (passes, score, terms) ->
       exists entry : gmap string R,
         a_debug res !! rw_id rw = Some entry /\
         entry !! "pass" = Some (float_of_bool passes) /\
         entry !! "score" = Some score /\
         (passes = false -> score = 0) /\
         terms ⊆ entry) /\
    ((forall rw passes score terms,
        rw ∈ RUNWAYS ->
        runway_fit_score ac_eastbound rw testapi.PARAMS
          = Ok (passes, score, terms) ->
        passes = false) ->
     a_best_id res = None /\ a_best_score res = 0).
Proof.
  apply (assign_debug_and_no_candidate ac_eastbound RUNWAYS testapi.PARAMS).
  intros rw _.
  destruct (runway_fit_score_returns ac_eastbound rw testapi.PARAMS
              20 0.3 0.5 0.5) as (p & s & t & H);
    try reflexivity; try discriminate; try lra.
  by exists (p, s, t).
Defined.

(** Two directions entered under the same id leave a single debug entry:
    not one entry per direction evaluated. *)
Lemma debug_same_id_single_entry :
  exists res : Assignment,
    assign_runway_for_aircraft ac_eastbound runways_same_id testapi.PARAMS
      = Ok res /\
    length runways_same_id = 2%nat /\
    size (a_debug res) = 1%nat /\
    size (a_debug res) <> length runways_same_id.
Proof.
  assert (Hfail : forall la lo,
    exists t, runway_fit_score ac_eastbound (mkRunway "33L" la lo 333 23)
                testapi.PARAMS = Ok (false, 0, t)).
  { intros la lo. eexists.
    apply (runway_fit_score_track_gate _ _ testapi.PARAMS 20); [reflexivity|].
    cbn [ac_eastbound mkAircraft mkRunway track_deg course_deg].
    rewrite (ang_diff_deg_eval 90 333 117 (-1)) by lra.
    rewrite Rabs_pos_eq; lra. }
  destruct (Hfail 37.4542 126.4608) as (t1 & H1).
  destruct (Hfail 37.4540 126.4437) as (t2 & H2).
  unfold assign_runway_for_aircraft, runways_same_id. cbn [loop].
  rewrite (loop_body_eq _ _ _ _ _ _ _ H1). cbn [andb]. run_result.
  rewrite (loop_body_eq _ _ _ _ _ _ _ H2). cbn [andb]. run_result.
  eexists. split; [reflexivity|]. split; [reflexivity|].
  cbn [a_debug results locals_init mkRunway rw_id].
  rewrite insert_insert_eq, insert_empty, map_size_singleton.
  split; [reflexivity | discriminate].
Qed.

(** ** Near-ties *)

Lemma isclose_rel (a b : R) :
  Rabs (b - a) <= Rabs (1e-9 * b) -> isclose a b = true.
Proof.
  intros H. unfold isclose. cbv zeta.
  destruct (Reqb a b); [reflexivity|].
  apply Rleb_true in H. by rewrite H.
Qed.

Lemma tuple_ltb_first (a1 a2 a3 b1 b2 b3 : R) :
  a1 < b1 -> tuple_ltb (Fin a1, Fin a2, Fin a3) (Fin b1, Fin b2, Fin b3) = true.
Proof.
  intros H. unfold tuple_ltb, pyfloat_eqb, pyfloat_ltb.
  replace (Reqb a1 b1) with false by (symmetry; apply Reqb_false; lra).
  cbn [negb]. apply Rltb_true, H.
Qed.

Lemma tuple_ltb_Inf (a1 a2 a3 : R) :
  tuple_ltb (Fin a1, Fin a2, Fin a3) (Inf, Inf, Inf) = true.
Proof. reflexivity. Qed.

(** Cross-track of an aircraft due north of a threshold at (0,0). *)
Lemma cross_track_from_origin (ac_lat : R) (rw : RunwayDir) :
  lat_thr rw = 0 -> lon_thr rw = 0 ->
  (cross_along_nm ac_lat 0 rw).1.1
  = - (radians ac_lat * R_EARTH_M * sin (radians (course_deg rw))) * NM_PER_M.
Proof.
  intros Hla Hlo.
  unfold cross_along_nm, en_from_threshold, runway_unit_vectors.
  rewrite Hla, Hlo. cbn [fst snd].
  replace (0 - 0) with 0 by ring.
  replace (ac_lat - 0) with ac_lat by ring.
  rewrite radians_0. ring.
Qed.

Lemma score_A :
  exists terms,
    runway_fit_score ac_tie rw_A testapi.PARAMS = Ok (true, 0.975, terms) /\
    (cross_along_nm (lat ac_tie) (lon ac_tie) rw_A).1.1 = 0.
Proof.
  assert (Hc : cross_along_nm (lat ac_tie) (lon ac_tie) rw_A
               = (0, radians 0.001 * R_EARTH_M * NM_PER_M,
                  radians 0.001 * R_EARTH_M * NM_PER_M)).
  { apply cross_along_nm_due_north; [reflexivity .. | lra]. }
  assert (Hdt : ang_diff_deg (track_deg ac_tie) (course_deg rw_A) = 1).
  { cbn [ac_tie rw_A mkAircraft mkRunway track_deg course_deg].
    rewrite (ang_diff_deg_eval 1 0 1 0) by lra. apply Rabs_pos_eq. lra. }
  eexists. split; [| by rewrite Hc].
  rewrite (runway_fit_score_pass_base ac_tie rw_A testapi.PARAMS
             20 0.3 0.5 0.5); try reflexivity;
    rewrite ?Hdt, ?Hc; cbn [fst snd]; rewrite ?Rabs_R0; try lra.
  assert (E : Rmin 1 (Rmax 0 (0.5 * Rmax 0 (1 - 1 / 20)
                               + 0.5 * Rmax 0 (1 - 0 / 0.3))) = 0.975).
  { rewrite !(Rmax_right 0 (1 - _)) by lra. rewrite clip_unit_id; lra. }
  rewrite E. reflexivity.
Qed.

Lemma score_B :
  exists score terms,
    runway_fit_score ac_tie rw_B testapi.PARAMS = Ok (true, score, terms) /\
    0.975 < score <= 0.975 + 2.5e-12 /\
    0 < Rabs (cross_along_nm (lat ac_tie) (lon ac_tie) rw_B).1.1.
Proof.
  pose proof PI_bounds as HPI.
  set (x := (cross_along_nm (lat ac_tie) (lon ac_tie) rw_B).1.1).
  set (th := radians 1e-10).
  set (n := radians 0.001 * R_EARTH_M).
  assert (Hx : x = - (n * sin th) * NM_PER_M).
  { subst x n th. apply cross_track_from_origin; reflexivity. }
  assert (Hth : 0 < th < 1.75e-12) by (subst th; unfold radians; lra).
  assert (Hn : 111 < n < 111.3) by (subst n; unfold radians, R_EARTH_M; lra).
  assert (Hs : 0 < sin th < 1.75e-12).
  { split; [apply sin_gt_0; lra|].
    pose proof (sin_lt_x th ltac:(lra)). lra. }
  assert (Hns : 0 < n * sin th < 2e-10) by nra.
  assert (Habs : Rabs x = n * sin th * NM_PER_M).
  { rewrite Hx. unfold NM_PER_M. rewrite Rabs_left; lra. }
  assert (Hxb : 0 < Rabs x < 2e-13) by (rewrite Habs; unfold NM_PER_M; lra).
  assert (Hdt : ang_diff_deg (track_deg ac_tie) (course_deg rw_B) = 1 - 1e-10).
  { cbn [ac_tie rw_B mkAircraft mkRunway track_deg course_deg].
    rewrite (ang_diff_deg_eval 1 1e-10 (1 - 1e-10) 0) by lra.
    apply Rabs_pos_eq. lra. }
  eexists _, _. split; [| split]; [| | exact (proj1 Hxb)].
  - apply (runway_fit_score_pass_base ac_tie rw_B testapi.PARAMS
             20 0.3 0.5 0.5); try reflexivity;
      rewrite ?Hdt; fold x; lra.
  - rewrite Hdt. fold x.
    rewrite !(Rmax_right 0 (1 - _)) by lra.
    rewrite clip_unit_id; lra.
Qed.

(** C3: two passing directions whose scores are equal within the tolerance
    of math.isclose; A has the smaller cross-track error, B the score higher
    by less than the tolerance.  The selection depends on the order of the
    list: B wins when it comes second (its score is strictly greater, the
    tie-break is not consulted), A wins when it comes second (the scores are
    close and its tuple is smaller). *)
Theorem near_tie_order_dependent :
  exists (sA sB : R) (tA tB : gmap string R) (resAB resBA : Assignment),
    runway_fit_score ac_tie rw_A testapi.PARAMS = Ok (true, sA, tA) /\
    runway_fit_score ac_tie rw_B testapi.PARAMS = Ok (true, sB, tB) /\
    sA < sB /\ isclose sA sB = true /\ isclose sB sA = true /\
    Rabs (cross_along_nm (lat ac_tie) (lon ac_tie) rw_A).1.1
      < Rabs (cross_along_nm (lat ac_tie) (lon ac_tie) rw_B).1.1 /\
    assign_runway_for_aircraft ac_tie [rw_A; rw_B] testapi.PARAMS = Ok resAB /\
    a_best_id resAB = Some "B" /\
    assign_runway_for_aircraft ac_tie [rw_B; rw_A] testapi.PARAMS = Ok resBA /\
    a_best_id resBA = Some "A".
Proof.
  destruct score_A as (tA & HA & HxA).
  destruct score_B as (sB & tB & HB & HsB & HxB).
  assert (Hx : Rabs (cross_along_nm (lat ac_tie) (lon ac_tie) rw_A).1.1
               < Rabs (cross_along_nm (lat ac_tie) (lon ac_tie) rw_B).1.1)
    by (rewrite HxA, Rabs_R0; exact HxB).
  assert (HcAB : isclose 0.975 sB = true).
  { apply isclose_rel. rewrite !Rabs_pos_eq; lra. }
  assert (HcBA : isclose sB 0.975 = true).
  { apply isclose_rel. rewrite Rabs_left, Rabs_pos_eq; lra. }
  assert (G1 : Rgtb 0.975 0 = true) by (apply Rgtb_true; lra).
  assert (G2 : Rgtb sB 0.975 = true) by (apply Rgtb_true; lra).
  assert (G3 : Rgtb sB 0 = true) by (apply Rgtb_true; lra).
  assert (G4 : Rgtb 0.975 sB = false) by (apply Rgtb_false; lra).
  exists 0.975, sB, tA, tB.
  eexists _, _.
  split; [exact HA|]. split; [exact HB|]. split; [lra|].
  split; [exact HcAB|]. split; [exact HcBA|]. split; [exact Hx|].
  unfold assign_runway_for_aircraft. cbn [loop].
  split; [|split; [|split]].
  - rewrite (loop_body_eq _ _ _ _ _ _ _ HA).
    cbn [locals_init best_score best_tiebreak andb]. rewrite G1.
    cbn [orb]. run_result.
    rewrite (loop_body_eq _ _ _ _ _ _ _ HB).
    cbn [best_score andb]. rewrite G2. cbn [orb]. run_result.
    reflexivity.
  - reflexivity.
  - rewrite (loop_body_eq _ _ _ _ _ _ _ HB).
    cbn [locals_init best_score best_tiebreak andb]. rewrite G3.
    cbn [orb]. run_result.
    rewrite (loop_body_eq _ _ _ _ _ _ _ HA).
    cbn [best_score best_tiebreak andb]. rewrite G4, HcAB.
    rewrite (tuple_ltb_first _ _ _ _ _ _ Hx).
    cbn [orb andb]. run_result.
    reflexivity.
  - reflexivity.
Qed.

(** ** A clear winner *)

Section clear_winner.

Variable ac : AircraftState.
Variable params : ScoreParams.

Lemma loop_app (l1 l2 : list RunwayDir) : forall st : locals,
  loop ac params (l1 ++ l2) st
  = st1 ← loop ac params l1 st; loop ac params l2 st1.
Proof.
  induction l1 as [|rw l1 IH]; intros st; [reflexivity|].
  cbn [app loop].
  destruct (loop_body ac params st rw) as [st1|e]; run_result;
    [apply IH | reflexivity].
Qed.

(** A property kept by every iteration is kept by the loop. *)
Lemma loop_invariant (I : locals -> Prop) (l : list RunwayDir) :
  (forall rw st, rw ∈ l -> I st ->
     exists st', loop_body ac params st rw = Ok st' /\ I st') ->
  forall st, I st -> exists st', loop ac params l st = Ok st' /\ I st'.
Proof.
  induction l as [|rw l IH]; intros Hstep st HI.
  - by exists st.
  - destruct (Hstep rw st) as (st1 & Hb & HI1); [by left | done |].
    destruct (IH (fun rw' st' Hin => Hstep rw' st' (list_elem_of_further _ _ _ Hin))
                st1 HI1) as (st' & Hl & HI').
    exists st'. cbn [loop]. rewrite Hb. run_result. by split.
Qed.

Variable rw : RunwayDir.
Variables (s : R) (t : gmap string R).
Hypothesis Hrw : runway_fit_score ac rw params = Ok (true, s, t).

(** Before the winner: the incumbent is the initial one or scores less. *)
#[local] Abbreviation below_winner := (fun st : locals =>
  best_score st < s \/
  (best_score st = 0 /\ best_tiebreak st = (Inf, Inf, Inf))).

(** After the winner: it is the incumbent. *)
#[local] Abbreviation winner_holds := (fun st : locals =>
  best_id st = Some (rw_id rw) /\ best_score st = s).

Lemma winner_taken (st : locals) :
  below_winner st ->
  exists st', loop_body ac params st rw = Ok st' /\ winner_holds st'.
Proof.
  intros Hst. rewrite (loop_body_eq ac params st rw _ _ _ Hrw).
  cbn [andb]. eexists. split; [reflexivity|].
  destruct (runway_fit_score_Ok_inv _ _ _ _ _ _ Hrw) as ([Hs0 _] & _).
  assert (Hsel : Rgtb s (best_score st)
                 || (isclose s (best_score st)
                     && tuple_ltb
                          (Fin (Rabs (cross_along_nm (lat ac) (lon ac) rw).1.1),
                           Fin (ang_diff_deg (track_deg ac) (course_deg rw)),
                           Fin (cross_along_nm (lat ac) (lon ac) rw).2)
                          (best_tiebreak st)) = true).
  { destruct Hst as [Hlt | [H0 Hinf]].
    - replace (Rgtb s (best_score st)) with true
        by (symmetry; apply Rgtb_true; lra).
      reflexivity.
    - rewrite H0, Hinf, tuple_ltb_Inf.
      destruct (Rgtb s 0) eqn:Hg; [reflexivity|].
      apply Rgtb_false in Hg. assert (s = 0) as -> by lra.
      unfold isclose.
      replace (Reqb 0 0) with true by (symmetry; by apply Reqb_true).
      reflexivity. }
  rewrite Hsel. by split.
Qed.

Lemma loser_before (rw' : RunwayDir) (st : locals) passes s' t' :
  runway_fit_score ac rw' params = Ok (passes, s', t') ->
  (passes = true -> s' < s) ->
  below_winner st ->
  exists st', loop_body ac params st rw' = Ok st' /\ below_winner st'.
Proof.
  intros H Hlt Hst. rewrite (loop_body_eq ac params st rw' _ _ _ H).
  eexists. split; [reflexivity|].
  destruct passes; cbn [andb]; [|exact Hst].
  destruct (_ || _); [| exact Hst].
  left. cbn [best_score]. by apply Hlt.
Qed.

Lemma loser_after (rw' : RunwayDir) (st : locals) passes s' t' :
  runway_fit_score ac rw' params = Ok (passes, s', t') ->
  (passes = true -> s' < s /\ isclose s' s = false) ->
  winner_holds st ->
  exists st', loop_body ac params st rw' = Ok st' /\ winner_holds st'.
Proof.
  intros H Hlt [Hid Hsc]. rewrite (loop_body_eq ac params st rw' _ _ _ H).
  eexists. split; [reflexivity|].
  destruct passes; cbn [andb]; [|by split].
  destruct Hlt as [Hlt Hnc]; [done|].
  rewrite Hsc, Hnc.
  replace (Rgtb s' s) with false by (symmetry; apply Rgtb_false; lra).
  by split.
Qed.

(** A passing direction whose score exceeds every other passing score by
    more than the tolerance is selected, wherever it stands in the list. *)
Lemma clear_winner_selected (before after : list RunwayDir) :
  (forall rw', rw' ∈ before ++ after ->
     exists r, runway_fit_score ac rw' params = Ok r) ->
  (forall rw' s' t', rw' ∈ before ++ after ->
     runway_fit_score ac rw' params = Ok (true, s', t') ->
     s' < s /\ isclose s' s = false) ->
  exists res : Assignment,
    assign_runway_for_aircraft ac (before ++ rw :: after) params = Ok res /\
    a_best_id res = Some (rw_id rw) /\ a_best_score res = s.
Proof.
  intros Hall Hless.
  destruct (loop_invariant below_winner before) with (st := locals_init)
    as (st1 & Hl1 & HI1).
  { intros rw' st Hin HI.
    destruct (Hall rw') as ([[p s'] t'] & H'); [apply elem_of_app; by left|].
    apply (loser_before rw' st p s' t' H'); [|done].
    intros ->. apply (Hless rw' s' t'); [apply elem_of_app; by left | done]. }
  { right. by split. }
  destruct (winner_taken st1 HI1) as (st2 & Hb & HI2).
  destruct (loop_invariant winner_holds after) with (st := st2)
    as (st3 & Hl3 & [Hid Hsc]).
  { intros rw' st Hin HI.
    destruct (Hall rw') as ([[p s'] t'] & H'); [apply elem_of_app; by right|].
    apply (loser_after rw' st p s' t' H'); [|done].
    intros ->. apply (Hless rw' s' t'); [apply elem_of_app; by right | done]. }
  { done. }
  unfold assign_runway_for_aircraft.
  rewrite loop_app, Hl1. run_result. cbn [loop]. rewrite Hb. run_result.
  rewrite Hl3. run_result.
  eexists. split; [reflexivity|]. by split.
Qed.

End clear_winner.

(** ** More on angles *)







Lemma ang_diff_deg_plus_180 (a b : R) :
  ang_diff_deg a (b + 180) = 180 - ang_diff_deg a b.
Proof.
  unfold ang_diff_deg.
  destruct (wrap_180_int (a - b)) as [j Hj].
  pose proof (wrap_180_range (a - b)) as Hr.
  destruct (Rle_dec 0 (wrap_180 (a - b))) as [Hpos|Hneg].
  - rewrite (wrap_180_unique (a - (b + 180)) (wrap_180 (a - b) - 180) j)
      by lra.
    rewrite Rabs_left1, Rabs_pos_eq; lra.
  - rewrite (wrap_180_unique (a - (b + 180)) (wrap_180 (a - b) + 180) (j - 1))
      by (rewrite ?(minus_IZR j 1); lra).
    rewrite Rabs_pos_eq, (Rabs_left (wrap_180 (a - b))); lra.
Qed.


(** ** Bearing *)







Lemma atan2_0_0 : atan2 0 0 = 0.
Proof.
  unfold atan2.
  by replace (Rltb 0 0) with false by (symmetry; apply Rltb_false; lra).
Qed.


(** The bearing is normalised to [0, 360), and is 0 between a point and
    itself. *)
Theorem bearing_deg_range (lat1 lon1 lat2 lon2 : R) :
  0 <= bearing_deg lat1 lon1 lat2 lon2 < 360 /\
  bearing_deg lat1 lon1 lat1 lon1 = 0.
Proof.
  split; [apply py_mod_360_range|].
  unfold bearing_deg. cbv zeta.
  replace (lon1 - lon1) with 0 by ring.
  rewrite radians_0, sin_0, cos_0.
  replace (0 * cos (radians lat1)) with 0 by ring.
  replace (cos (radians lat1) * sin (radians lat1)
           - sin (radians lat1) * cos (radians lat1) * 1) with 0 by ring.
  rewrite atan2_0_0.
  replace (degrees 0) with 0 by (unfold degrees; ring).
  apply (py_mod_360_unique _ 0 1); lra.
Qed.





(** ** Great-circle distance *)

Lemma sin_half_sqr (x : R) : sin (x / 2) ^ 2 = (1 - cos x) / 2.
Proof.
  replace x with (2 * (x / 2)) at 2 by field.
  rewrite cos_2a_sin. field.
Qed.

(** The haversine term lies in [0, 1] for all real arguments. *)
Lemma haversine_term_unit (phi1 phi2 dlam : R) :
  0 <= sin ((phi2 - phi1) / 2) ^ 2
       + cos phi1 * cos phi2 * sin (dlam / 2) ^ 2 <= 1.
Proof.
  rewrite !sin_half_sqr, cos_minus.
  pose proof (COS_bound dlam) as Hl.
  pose proof (COS_bound (phi2 - phi1)) as Hm. rewrite cos_minus in Hm.
  pose proof (COS_bound (phi2 + phi1)) as Hp. rewrite cos_plus in Hp.
  set (c := cos phi2 * cos phi1) in *.
  set (ss := sin phi2 * sin phi1) in *.
  replace (cos phi1 * cos phi2) with c by (subst c; ring).
  set (t := (1 - cos dlam) / 2).
  assert (Ht : 0 <= t <= 1) by (subst t; lra).
  replace ((1 - (c + ss)) / 2 + c * t)
    with ((1 - t) * ((1 - (c + ss)) / 2) + t * ((1 + (c - ss)) / 2))
    by field.
  split; nra.
Qed.

Lemma asin_unit_nonneg (x : R) : 0 <= x <= 1 -> 0 <= asin x <= PI / 2.
Proof.
  intros Hx. pose proof (asin_bound x) as [Hlo Hhi]. split; [|done].
  destruct (Rle_dec 0 (asin x)) as [|Hneg]; [done|].
  pose proof PI_RGT_0.
  assert (sin (asin x) < 0) by (apply sin_lt_0_var; lra).
  rewrite sin_asin in *; lra.
Qed.

Lemma haversine_nm_eq (lat1 lon1 lat2 lon2 : R) :
  haversine_nm lat1 lon1 lat2 lon2
  = Some (2 * 3440.065
          * asin (sqrt (sin ((radians lat2 - radians lat1) / 2) ^ 2
                        + cos (radians lat1) * cos (radians lat2)
                          * sin (radians (lon2 - lon1) / 2) ^ 2))).
Proof.
  unfold haversine_nm. cbv zeta.
  set (a := _ + _).
  pose proof (haversine_term_unit (radians lat1) (radians lat2)
                (radians (lon2 - lon1))) as Ha. fold a in Ha.
  assert (Hs : 0 <= sqrt a <= 1).
  { split; [apply sqrt_pos|].
    rewrite <- sqrt_1. apply sqrt_le_1_alt. lra. }
  unfold py_sqrt.
  replace (Rltb a 0) with false by (symmetry; apply Rltb_false; lra).
  cbn [mbind option_bind]. unfold py_asin.
  replace (Rltb (sqrt a) (-1)) with false
    by (symmetry; apply Rltb_false; lra).
  replace (Rltb 1 (sqrt a)) with false
    by (symmetry; apply Rltb_false; lra).
  reflexivity.
Qed.

(** The square root and the arcsine are always applied inside their
    domains: the distance is returned, and it lies between 0 and half the
    circumference of the sphere of radius 3440.065 NM. *)
Theorem haversine_nm_returns (lat1 lon1 lat2 lon2 : R) :
  exists d : R,
    haversine_nm lat1 lon1 lat2 lon2 = Some d /\ 0 <= d <= 3440.065 * PI.
Proof.
  rewrite haversine_nm_eq. eexists. split; [reflexivity|].
  set (a := _ + _).
  pose proof (haversine_term_unit (radians lat1) (radians lat2)
                (radians (lon2 - lon1))) as Ha. fold a in Ha.
  assert (Hs : 0 <= sqrt a <= 1).
  { split; [apply sqrt_pos|].
    rewrite <- sqrt_1. apply sqrt_le_1_alt. lra. }
  pose proof (asin_unit_nonneg _ Hs). lra.
Qed.

(** The distance is symmetric in its two points and is 0 from a point to
    itself. *)
Theorem haversine_nm_sym (lat1 lon1 lat2 lon2 : R) :
  haversine_nm lat2 lon2 lat1 lon1 = haversine_nm lat1 lon1 lat2 lon2 /\
  haversine_nm lat1 lon1 lat1 lon1 = Some 0.
Proof.
  rewrite !haversine_nm_eq. split.
  - do 4 f_equal.
    rewrite !sin_half_sqr.
    replace (radians lat1 - radians lat2)
      with (- (radians lat2 - radians lat1)) by ring.
    replace (radians (lon1 - lon2)) with (- radians (lon2 - lon1))
      by (unfold radians; ring).
    rewrite !cos_neg. ring.
  - f_equal.
    replace (radians lat1 - radians lat1) with 0 by ring.
    replace (lon1 - lon1) with 0 by ring. rewrite radians_0.
    replace (0 / 2) with 0 by field. rewrite sin_0.
    replace (0 ^ 2 + cos (radians lat1) * cos (radians lat1) * 0 ^ 2)
      with 0 by ring.
    rewrite sqrt_0, asin_0. ring.
Qed.

(** ** More on the runway frame *)

Lemma cross_along_nm_eq (ac_lat ac_lon : R) (rw : RunwayDir) :
  let e := radians (ac_lon - lon_thr rw) * cos (radians (lat_thr rw))
           * R_EARTH_M in
  let n := radians (ac_lat - lat_thr rw) * R_EARTH_M in
  let th := radians (course_deg rw) in
  cross_along_nm ac_lat ac_lon rw
  = ((e * cos th + n * - sin th) * NM_PER_M,
     (e * sin th + n * cos th) * NM_PER_M,
     hypot e n * NM_PER_M).
Proof. reflexivity. Qed.

Lemma sqr_le_abs (x d : R) : 0 <= d -> x * x <= d * d -> Rabs x <= d.
Proof. intros Hd Hx. apply Rabs_le. split; nra. Qed.

Lemma rotation_sqr (e n th : R) :
  e * e + n * n
  = (e * cos th + n * - sin th) * (e * cos th + n * - sin th)
    + (e * sin th + n * cos th) * (e * sin th + n * cos th).
Proof.
  pose proof (sin2_cos2 th) as Hsc. unfold Rsqr in Hsc.
  replace (e * e + n * n)
    with ((e * e + n * n) * (sin th * sin th + cos th * cos th))
    by (rewrite Hsc; ring).
  ring.
Qed.

(** Neither offset exceeds the straight-line distance, and at the
    threshold itself all three are zero. *)
Theorem cross_along_nm_bounds (ac_lat ac_lon : R) (rw : RunwayDir) :
  let c := cross_along_nm ac_lat ac_lon rw in
  Rabs c.1.1 <= c.2 /\ Rabs c.1.2 <= c.2 /\
  cross_along_nm (lat_thr rw) (lon_thr rw) rw = (0, 0, 0).
Proof.
  cbv zeta. split; [|split].
  - rewrite cross_along_nm_eq. cbv zeta. cbn [fst snd].
    set (e := _ * R_EARTH_M). set (n := _ * R_EARTH_M).
    set (th := radians _).
    pose proof (rotation_sqr e n th) as Hrot.
    pose proof (hypot_sqr e n) as Hh. pose proof (hypot_nonneg e n) as Hp.
    unfold NM_PER_M. rewrite Rabs_mult, (Rabs_pos_eq (1 / 1852)) by lra.
    apply Rmult_le_compat_r; [lra|].
    apply sqr_le_abs; [done|]. rewrite Hh, Hrot.
    match goal with |- _ <= ?a * ?a + ?b * ?b =>
      pose proof (Rle_0_sqr a) as Hsa; pose proof (Rle_0_sqr b) as Hsb
    end.
    unfold Rsqr in Hsa, Hsb. lra.
  - rewrite cross_along_nm_eq. cbv zeta. cbn [fst snd].
    set (e := _ * R_EARTH_M). set (n := _ * R_EARTH_M).
    set (th := radians _).
    pose proof (rotation_sqr e n th) as Hrot.
    pose proof (hypot_sqr e n) as Hh. pose proof (hypot_nonneg e n) as Hp.
    unfold NM_PER_M. rewrite Rabs_mult, (Rabs_pos_eq (1 / 1852)) by lra.
    apply Rmult_le_compat_r; [lra|].
    apply sqr_le_abs; [done|]. rewrite Hh, Hrot.
    match goal with |- _ <= ?a * ?a + ?b * ?b =>
      pose proof (Rle_0_sqr a) as Hsa; pose proof (Rle_0_sqr b) as Hsb
    end.
    unfold Rsqr in Hsa, Hsb. lra.
  - rewrite cross_along_nm_eq. cbv zeta.
    replace (lon_thr rw - lon_thr rw) with 0 by ring.
    replace (lat_thr rw - lat_thr rw) with 0 by ring.
    rewrite radians_0.
    replace (0 * cos (radians (lat_thr rw)) * R_EARTH_M) with 0 by ring.
    replace (0 * R_EARTH_M) with 0 by ring.
    rewrite (hypot_0_l 0) by lra.
    repeat f_equal; ring.
Qed.


(** ** More on scoring *)

(** What a passing result says about the parameters and the geometry. *)
Lemma runway_fit_score_pass_inv ac rw params score terms :
  runway_fit_score ac rw params = Ok (true, score, terms) ->
  exists g_t g_x wt wx : R,
    track_gate_deg params = Some g_t /\
    xtrack_gate_nm params = Some g_x /\
    w_track params = Some wt /\
    w_xtrack params = Some wx /\
    (dict_get (use_distance params) false = true -> is_Some (w_dist params)) /\
    ang_diff_deg (track_deg ac) (course_deg rw) <= g_t /\
    Rabs (cross_along_nm (lat ac) (lon ac) rw).1.1 <= g_x /\
    0 < g_t /\ 0 < g_x.
Proof.
  intros H.
  assert (Hdt : 0 <= ang_diff_deg (track_deg ac) (course_deg rw))
    by apply Rabs_pos.
  pose proof (Rabs_pos (cross_along_nm (lat ac) (lon ac) rw).1.1) as Hx.
  revert H. unfold runway_fit_score.
  destruct (cross_along_nm _ _ _) as [[x_nm s_nm] d_nm]. cbn [fst snd] in *.
  destruct (track_gate_deg params) as [g_t|]; run_result; [|done].
  destruct (Rgtb _ g_t) eqn:E1; [done|]. apply Rgtb_false in E1.
  destruct (xtrack_gate_nm params) as [g_x|]; run_result; [|done].
  destruct (Rgtb _ g_x) eqn:E2; [done|]. apply Rgtb_false in E2.
  destruct (Req_dec_T g_t 0) as [->|Z1]; [by rewrite py_div_0|].
  rewrite (py_div_Ok _ g_t) by done. run_result.
  destruct (Req_dec_T g_x 0) as [->|Z2]; [by rewrite py_div_0|].
  rewrite (py_div_Ok _ g_x) by done. run_result.
  destruct (w_track params) as [wt|]; run_result; [|done].
  destruct (w_xtrack params) as [wx|]; run_result; [|done].
  intros H. exists g_t, g_x, wt, wx.
  repeat split; try done; try lra.
  intros Hud. rewrite Hud in H.
  destruct (py_div _ _); run_result_in H; [|done].
  destruct (w_dist params); [done|]. run_result_in H. done.
Qed.

(** What a failing result says. *)
Lemma runway_fit_score_fail_inv ac rw params score terms :
  runway_fit_score ac rw params = Ok (false, score, terms) ->
  exists g_t : R,
    track_gate_deg params = Some g_t /\
    (ang_diff_deg (track_deg ac) (course_deg rw) > g_t \/
     exists g_x : R,
       xtrack_gate_nm params = Some g_x /\
       Rabs (cross_along_nm (lat ac) (lon ac) rw).1.1 > g_x) /\
    terms = gate_terms (ang_diff_deg (track_deg ac) (course_deg rw))
              (cross_along_nm (lat ac) (lon ac) rw).1.1
              (cross_along_nm (lat ac) (lon ac) rw).2.
Proof.
  unfold runway_fit_score.
  destruct (cross_along_nm _ _ _) as [[x_nm s_nm] d_nm]. cbn [fst snd] in *.
  destruct (track_gate_deg params) as [g_t|]; run_result; [|done].
  destruct (Rgtb _ g_t) eqn:E1.
  { apply Rgtb_true in E1. intros H. inversion H. exists g_t. by auto. }
  destruct (xtrack_gate_nm params) as [g_x|]; run_result; [|done].
  destruct (Rgtb _ g_x) eqn:E2.
  { apply Rgtb_true in E2. intros H. inversion H. exists g_t.
    split; [done|]. split; [|done]. right. by exists g_x. }
  intros H.
  repeat match type of H with
  | context [subscript _ ?o] => destruct o; run_result_in H
  | context [py_div ?a ?b] => destruct (py_div a b); run_result_in H
  | context [dict_get ?o false] => destruct (dict_get o false)
  | _ => progress (run_result_in H)
  end; discriminate H.
Qed.

(** The function returns exactly when the track gate is present and
    either a gate rejects the candidate or everything the passing branch
    subscripts is present and no gate is zero. *)
Theorem runway_fit_score_returns_iff ac rw params :
  (exists r, runway_fit_score ac rw params = Ok r) <->
  exists g_t : R,
    track_gate_deg params = Some g_t /\
    (ang_diff_deg (track_deg ac) (course_deg rw) > g_t \/
     exists g_x : R,
       xtrack_gate_nm params = Some g_x /\
       (Rabs (cross_along_nm (lat ac) (lon ac) rw).1.1 > g_x \/
        (g_t <> 0 /\ g_x <> 0 /\
         is_Some (w_track params) /\ is_Some (w_xtrack params) /\
         (dict_get (use_distance params) false = true ->
          is_Some (w_dist params))))).
Proof.
  split.
  - intros ([[[] s] t] & H).
    + destruct (runway_fit_score_pass_inv _ _ _ _ _ H)
        as (g_t & g_x & wt & wx & Hg & Hx & Hwt & Hwx & Hwd & _ & _ & ? & ?).
      exists g_t. split; [done|]. right. exists g_x. split; [done|]. right.
      rewrite Hwt, Hwx. repeat split; try done; lra.
    + destruct (runway_fit_score_fail_inv _ _ _ _ _ H)
        as (g_t & Hg & [Hd|(g_x & Hx & Hc)] & _).
      * exists g_t. split; [done|]. by left.
      * exists g_t. split; [done|]. right. exists g_x. split; [done|].
        by left.
  - intros (g_t & Hg & Hcases).
    destruct (Rgt_dec (ang_diff_deg (track_deg ac) (course_deg rw)) g_t)
      as [Hd|Hd].
    { eexists. by apply (runway_fit_score_track_gate ac rw params g_t). }
    destruct Hcases as [Hd'|(g_x & Hx & Hcases)]; [done|].
    destruct (Rgt_dec (Rabs (cross_along_nm (lat ac) (lon ac) rw).1.1) g_x)
      as [Hc|Hc].
    { eexists.
      apply (runway_fit_score_xtrack_gate ac rw params g_t g_x); try done.
      lra. }
    destruct Hcases as [Hc'|(Hg0 & Hx0 & [wt Hwt] & [wx Hwx] & Hwd)]; [done|].
    destruct (runway_fit_score_returns ac rw params g_t g_x wt wx)
      as (p & s & t & H); try done.
    by exists (p, s, t).
Qed.

(** A returned result passes exactly when both gates hold; a passing
    result carries T and X in [0,1] and the along-track distance, a failing
    one carries none of the three. *)
Theorem runway_fit_score_passes_iff ac rw params passes score terms :
  runway_fit_score ac rw params = Ok (passes, score, terms) ->
  exists g_t : R,
    track_gate_deg params = Some g_t /\
    (passes = true <->
     ang_diff_deg (track_deg ac) (course_deg rw) <= g_t /\
     exists g_x : R,
       xtrack_gate_nm params = Some g_x /\
       Rabs (cross_along_nm (lat ac) (lon ac) rw).1.1 <= g_x) /\
    (passes = true ->
     exists T X : R,
       terms !! "T" = Some T /\ terms !! "X" = Some X /\
       0 <= T <= 1 /\ 0 <= X <= 1 /\
       terms !! "s_nm" = Some (cross_along_nm (lat ac) (lon ac) rw).1.2) /\
    (passes = false ->
     terms !! "T" = None /\ terms !! "X" = None /\ terms !! "s_nm" = None).
Proof.
  intros H. destruct passes.
  - destruct (runway_fit_score_pass_inv _ _ _ _ _ H)
      as (g_t & g_x & wt & wx & Hg & Hx & Hwt & Hwx & Hwd & Hd & Hc & Hg0 & Hx0).
    exists g_t. split; [done|]. split; [|split; [|done]].
    { split; [|done]. intros _. split; [done|]. by exists g_x. }
    intros _.
    assert (Hdt : 0 <= ang_diff_deg (track_deg ac) (course_deg rw))
      by apply Rabs_pos.
    pose proof (Rabs_pos (cross_along_nm (lat ac) (lon ac) rw).1.1) as Hxa.
    assert (Ht : terms = pass_terms
              (ang_diff_deg (track_deg ac) (course_deg rw))
              (cross_along_nm (lat ac) (lon ac) rw).1.1
              (cross_along_nm (lat ac) (lon ac) rw).1.2
              (cross_along_nm (lat ac) (lon ac) rw).2
              (Rmax 0 (1 - ang_diff_deg (track_deg ac) (course_deg rw) / g_t))
              (Rmax 0 (1 - Rabs (cross_along_nm (lat ac) (lon ac) rw).1.1 / g_x))).
    { destruct (dict_get (use_distance params) false) eqn:Hud.
      - destruct Hwd as [wd Hwd]; [done|].
        rewrite (runway_fit_score_pass_dist ac rw params g_t g_x wt wx wd)
          in H; try done; try lra.
        by inversion H.
      - rewrite (runway_fit_score_pass_base ac rw params g_t g_x wt wx)
          in H; try done; try lra.
        by inversion H. }
    eexists _, _.
    match type of Ht with _ = pass_terms ?a ?b ?c ?d ?e ?f =>
      destruct (lookup_pass_terms a b c d e f) as (_ & _ & P3 & _ & P5 & P6 & _)
    end.
    rewrite Ht. split; [exact P5|]. split; [exact P6|].
    assert (Hq1 : 0 <= ang_diff_deg (track_deg ac) (course_deg rw) / g_t)
      by (apply Rmult_le_pos; [lra | left; apply Rinv_0_lt_compat; lra]).
    assert (Hq2 : 0 <= Rabs (cross_along_nm (lat ac) (lon ac) rw).1.1 / g_x)
      by (apply Rmult_le_pos; [lra | left; apply Rinv_0_lt_compat; lra]).
    split; [split; [apply Rmax_l | apply Rmax_lub; lra]|].
    split; [split; [apply Rmax_l | apply Rmax_lub; lra]|].
    exact P3.
  - destruct (runway_fit_score_fail_inv _ _ _ _ _ H)
      as (g_t & Hg & Hcases & Ht).
    exists g_t. split; [done|]. split; [|split; [done|]].
    + split; [done|]. intros (Hd & g_x & Hx & Hc). exfalso.
      destruct Hcases as [Hd'|(g_x' & Hx' & Hc')]; [lra|].
      rewrite Hx in Hx'. inversion Hx'. lra.
    + intros _. rewrite Ht. unfold gate_terms.
      repeat split; by simplify_map_eq.
Qed.

Lemma on_centerline_passes :
  exists score terms,
    runway_fit_score ac_on_centerline rw_north full_params
    = Ok (true, score, terms).
Proof.
  eexists _, _.
  apply (runway_fit_score_pass_dist ac_on_centerline rw_north full_params
           20 0.3 0.45 0.45 0.10); try reflexivity;
    cbn [ac_on_centerline rw_north mkAircraft mkRunway track_deg course_deg
         lat lon]; rewrite ?ang_diff_deg_same; try lra.
  change (mkRunway "36" 0 0 0 0) with rw_north.
  rewrite (cross_along_nm_due_north 0.01 rw_north) by (reflexivity || lra).
  cbn [fst snd]. rewrite Rabs_R0. lra.
Qed.

Lemma runway_fit_score_passes_iff_witness :
  exists score terms g_t,
    runway_fit_score ac_on_centerline rw_north full_params
      = Ok (true, score, terms) /\
    track_gate_deg full_params = Some g_t /\
    terms !! "s_nm"
      = Some (cross_along_nm (lat ac_on_centerline) (lon ac_on_centerline)
                rw_north).1.2.
Proof.
  destruct on_centerline_passes as (score & terms & H).
  destruct (runway_fit_score_passes_iff _ _ _ _ _ _ H)
    as (g_t & Hg & _ & Hpass & _).
  destruct Hpass as (T & X & _ & _ & _ & _ & Hs); [done|].
  by exists score, terms, g_t.
Defined.

Lemma Rmax_0_mono (a b : R) : a <= b -> Rmax 0 a <= Rmax 0 b.
Proof.
  intros H. apply Rmax_lub; [apply Rmax_l|].
  apply Rle_trans with b; [done | apply Rmax_r].
Qed.

Lemma clip_unit_mono (a b : R) :
  a <= b -> Rmin 1 (Rmax 0 a) <= Rmin 1 (Rmax 0 b).
Proof.
  intros H. apply Rmin_glb; [apply Rmin_l|].
  apply Rle_trans with (Rmax 0 a); [apply Rmin_r | by apply Rmax_0_mono].
Qed.

Lemma norm_term_mono (e1 e2 g : R) :
  0 < g -> e1 <= e2 -> Rmax 0 (1 - e2 / g) <= Rmax 0 (1 - e1 / g).
Proof.
  intros Hg He. apply Rmax_0_mono.
  assert (e1 / g <= e2 / g); [|lra].
  apply Rmult_le_compat_r; [left; by apply Rinv_0_lt_compat | done].
Qed.

(** Without the distance term and with non-negative weights, of two passing
    candidates the one with no larger track error and no larger cross-track
    error scores no lower. *)
Theorem score_monotone_in_errors ac1 rw1 ac2 rw2 params (wt wx : R)
    s1 t1 s2 t2 :
  dict_get (use_distance params) false = false ->
  w_track params = Some wt -> w_xtrack params = Some wx ->
  0 <= wt -> 0 <= wx ->
  runway_fit_score ac1 rw1 params = Ok (true, s1, t1) ->
  runway_fit_score ac2 rw2 params = Ok (true, s2, t2) ->
  ang_diff_deg (track_deg ac1) (course_deg rw1)
    <= ang_diff_deg (track_deg ac2) (course_deg rw2) ->
  Rabs (cross_along_nm (lat ac1) (lon ac1) rw1).1.1
    <= Rabs (cross_along_nm (lat ac2) (lon ac2) rw2).1.1 ->
  s2 <= s1.
Proof.
  intros Hud Hwt Hwx Hwt0 Hwx0 H1 H2 Hd Hx.
  destruct (runway_fit_score_pass_inv _ _ _ _ _ H1)
    as (g_t & g_x & wt' & wx' & Hg & Hgx & Hwt' & Hwx' & _ & Hd1 & Hc1 & Hg0 & Hx0).
  destruct (runway_fit_score_pass_inv _ _ _ _ _ H2)
    as (g_t2 & g_x2 & _ & _ & Hg2 & Hgx2 & _ & _ & _ & Hd2 & Hc2 & _ & _).
  rewrite Hg in Hg2. rewrite Hgx in Hgx2.
  inversion Hg2; inversion Hgx2; subst g_t2 g_x2. clear Hwt' Hwx'.
  rewrite (runway_fit_score_pass_base ac1 rw1 params g_t g_x wt wx) in H1;
    try done; try lra.
  rewrite (runway_fit_score_pass_base ac2 rw2 params g_t g_x wt wx) in H2;
    try done; try lra.
  inversion H1; inversion H2; subst.
  apply clip_unit_mono.
  pose proof (norm_term_mono _ _ g_t Hg0 Hd).
  pose proof (norm_term_mono _ _ g_x Hx0 Hx).
  apply Rplus_le_compat; by apply Rmult_le_compat_l.
Qed.

Lemma aligned_passes_A :
  exists score terms,
    runway_fit_score ac_on_centerline rw_A testapi.PARAMS
      = Ok (true, score, terms) /\
    ang_diff_deg (track_deg ac_on_centerline) (course_deg rw_A) = 0 /\
    (cross_along_nm (lat ac_on_centerline) (lon ac_on_centerline) rw_A).1.1 = 0.
Proof.
  assert (Hc : cross_along_nm (lat ac_on_centerline) (lon ac_on_centerline) rw_A
               = (0, radians 0.01 * R_EARTH_M * NM_PER_M,
                  radians 0.01 * R_EARTH_M * NM_PER_M)).
  { apply cross_along_nm_due_north; [reflexivity .. | lra]. }
  assert (Hdt : ang_diff_deg (track_deg ac_on_centerline) (course_deg rw_A) = 0)
    by apply ang_diff_deg_same.
  eexists _, _. split; [| split; [done | by rewrite Hc]].
  apply (runway_fit_score_pass_base ac_on_centerline rw_A testapi.PARAMS
           20 0.3 0.5 0.5); try reflexivity;
    rewrite ?Hdt, ?Hc; cbn [fst snd]; rewrite ?Rabs_R0; lra.
Qed.

(** The aligned aircraft scores no lower than the one tracking 1 degree
    off, both on the centerline of A. *)
Lemma score_monotone_in_errors_witness :
  exists s1 t1 s2 t2,
    runway_fit_score ac_on_centerline rw_A testapi.PARAMS = Ok (true, s1, t1) /\
    runway_fit_score ac_tie rw_A testapi.PARAMS = Ok (true, s2, t2) /\
    s2 <= s1.
Proof.
  destruct aligned_passes_A as (s1 & t1 & H1 & Hd1 & Hx1).
  destruct score_A as (t2 & H2 & Hx2).
  exists s1, t1, 0.975, t2. split; [done|]. split; [done|].
  apply (score_monotone_in_errors ac_on_centerline rw_A ac_tie rw_A
           testapi.PARAMS 0.5 0.5 s1 t1 0.975 t2);
    try reflexivity; try done; try lra.
  - rewrite Hd1. apply Rabs_pos.
  - rewrite Hx1, Hx2. lra.
Defined.

(** With a track gate below 90 degrees, a direction that passes excludes
    its reciprocal: scored from the same threshold with the course turned
    by 180, the candidate fails the gates. *)
Theorem reciprocal_direction_fails ac rw params (id : string) (elev g_t : R)
    score terms :
  track_gate_deg params = Some g_t -> g_t < 90 ->
  runway_fit_score ac rw params = Ok (true, score, terms) ->
  exists terms',
    runway_fit_score ac
      (mkRunway id (lat_thr rw) (lon_thr rw) (course_deg rw + 180) elev)
      params
    = Ok (false, 0, terms').
Proof.
  intros Hg H90 H.
  destruct (runway_fit_score_pass_inv _ _ _ _ _ H)
    as (g_t' & _ & _ & _ & Hg' & _ & _ & _ & _ & Hd & _).
  rewrite Hg in Hg'. inversion Hg'; subst g_t'.
  eexists.
  apply (runway_fit_score_track_gate _ _ params g_t); [done|].
  cbn [mkRunway course_deg]. rewrite ang_diff_deg_plus_180. lra.
Qed.

Lemma reciprocal_direction_fails_witness :
  exists terms',
    runway_fit_score ac_on_centerline
      (mkRunway "18" (lat_thr rw_north) (lon_thr rw_north)
         (course_deg rw_north + 180) 0)
      full_params
    = Ok (false, 0, terms').
Proof.
  destruct on_centerline_passes as (score & terms & H).
  apply (reciprocal_direction_fails ac_on_centerline rw_north full_params
           "18" 0 20 score terms); [reflexivity | lra | exact H].
Defined.

(** ** More on the selection *)

Section selection_sound.

Variable ac : AircraftState.
Variable params : ScoreParams.

Lemma loop_body_Ok_inv (st st1 : locals) (rw : RunwayDir) :
  loop_body ac params st rw = Ok st1 ->
  exists passes score terms,
    runway_fit_score ac rw params = Ok (passes, score, terms).
Proof.
  unfold loop_body.
  destruct (runway_fit_score ac rw params) as [[[p s] t]|e]; [|done].
  intros _. by exists p, s, t.
Qed.

Lemma loop_cons_inv (rw : RunwayDir) (rest : list RunwayDir) (st st' : locals) :
  loop ac params (rw :: rest) st = Ok st' ->
  exists st1, loop_body ac params st rw = Ok st1 /\
              loop ac params rest st1 = Ok st'.
Proof.
  cbn [loop].
  destruct (loop_body ac params st rw) as [st1|e]; run_result; [|done].
  intros H. by exists st1.
Qed.

(** The loop returns only if every candidate was scored. *)
Lemma loop_Ok_inv (runways : list RunwayDir) : forall st st',
  loop ac params runways st = Ok st' ->
  forall rw, rw ∈ runways -> exists r, runway_fit_score ac rw params = Ok r.
Proof.
  induction runways as [|rw rest IH]; intros st st' H rw' Hin.
  - by apply elem_of_nil in Hin.
  - apply loop_cons_inv in H as (st1 & Hb & Hl).
    apply elem_of_cons in Hin as [->|Hin]; [| by apply (IH st1 st')].
    apply loop_body_Ok_inv in Hb as (p & s & t & H). by exists (p, s, t).
Qed.

(** The incumbent at the end is the one at the start or a passing
    candidate of the list, with its score. *)
Lemma loop_best_sound (runways : list RunwayDir) : forall st st',
  loop ac params runways st = Ok st' ->
  (best_id st' = best_id st /\ best_score st' = best_score st) \/
  (exists rw terms,
     rw ∈ runways /\ best_id st' = Some (rw_id rw) /\
     runway_fit_score ac rw params = Ok (true, best_score st', terms)).
Proof.
  induction runways as [|rw rest IH]; intros st st' H.
  - left. cbn [loop] in H. by inversion H.
  - apply loop_cons_inv in H as (st1 & Hb & Hl).
    destruct (loop_body_Ok_inv _ _ _ Hb) as (p & s & t & Hrw).
    destruct (IH st1 st' Hl) as [[Hid Hsc]|(rw' & t' & Hin & Hid & Hrw')].
    + rewrite (loop_body_eq ac params st rw _ _ _ Hrw) in Hb.
      injection Hb as <-.
      destruct (p && _) eqn:Hsel; cbn [best_id best_score] in Hid, Hsc.
      * right. exists rw, t. split; [by left|].
        apply andb_prop in Hsel as [-> _].
        rewrite Hid, Hsc. by split.
      * left. by rewrite Hid, Hsc.
    + right. exists rw', t'. split; [by right | by split].
Qed.

(** Until a candidate has been taken, the incumbent is the initial one. *)
Lemma loop_body_fresh (st st1 : locals) (rw : RunwayDir) :
  (best_id st = None ->
   best_score st = 0 /\ best_tiebreak st = (Inf, Inf, Inf)) ->
  loop_body ac params st rw = Ok st1 ->
  (best_id st1 = None ->
   best_score st1 = 0 /\ best_tiebreak st1 = (Inf, Inf, Inf) /\
   best_id st = None /\
   forall s t, runway_fit_score ac rw params <> Ok (true, s, t)).
Proof.
  intros Hfresh Hb Hnone.
  destruct (loop_body_Ok_inv _ _ _ Hb) as (p & s & t & Hrw).
  rewrite (loop_body_eq ac params st rw _ _ _ Hrw) in Hb.
  injection Hb as <-.
  destruct (p && _) eqn:Hsel; cbn [best_id] in Hnone; [done|].
  destruct (Hfresh Hnone) as [H0 Hinf].
  cbn [best_score best_tiebreak].
  repeat split; try done.
  intros s' t' Hrw'. rewrite Hrw in Hrw'. inversion Hrw'; subst.
  cbn [andb] in Hsel. rewrite H0, Hinf in Hsel. cbn [negb] in Hsel.
  destruct (runway_fit_score_Ok_inv _ _ _ _ _ _ Hrw) as ([Hs0 _] & _).
  destruct (Rgtb s' 0) eqn:Hg; [done|].
  apply Rgtb_false in Hg. assert (s' = 0) as -> by lra.
  unfold isclose in Hsel.
  replace (Reqb 0 0) with true in Hsel by (symmetry; by apply Reqb_true).
  done.
Qed.

Lemma loop_best_None (runways : list RunwayDir) : forall st st',
  (best_id st = None ->
   best_score st = 0 /\ best_tiebreak st = (Inf, Inf, Inf)) ->
  loop ac params runways st = Ok st' ->
  best_id st' = None ->
  best_id st = None /\
  forall rw s t, rw ∈ runways ->
    runway_fit_score ac rw params <> Ok (true, s, t).
Proof.
  induction runways as [|rw rest IH]; intros st st' Hfresh H Hnone.
  - cbn [loop] in H. inversion H; subst. split; [done|].
    intros rw s t Hin. by apply elem_of_nil in Hin.
  - apply loop_cons_inv in H as (st1 & Hb & Hl).
    pose proof (loop_body_fresh st st1 rw Hfresh Hb) as Hstep.
    destruct (IH st1 st') as [Hn1 Hrest]; try done.
    { intros Hn. by destruct (Hstep Hn) as (? & ? & _). }
    destruct (Hstep Hn1) as (_ & _ & Hn0 & Hrw).
    split; [done|].
    intros rw' s t Hin. apply elem_of_cons in Hin as [->|Hin];
      [apply Hrw | by apply Hrest].
Qed.

(** The selector returns exactly when every direction of the list is
    scored without an exception. *)
Theorem assign_returns_iff (runways : list RunwayDir) :
  (exists res, assign_runway_for_aircraft ac runways params = Ok res) <->
  (forall rw, rw ∈ runways ->
     exists r, runway_fit_score ac rw params = Ok r).
Proof.
  unfold assign_runway_for_aircraft. split.
  - intros [res H].
    destruct (loop ac params runways locals_init) as [st|e] eqn:Hl; [|done].
    by apply (loop_Ok_inv runways locals_init st).
  - intros Hall.
    destruct (loop_spec ac params runways locals_init Hall) as (st & Hl & _).
    rewrite Hl. by eexists.
Qed.

Lemma assign_best_entry (runways : list RunwayDir) (res : Assignment)
    (id : string) :
  assign_runway_for_aircraft ac runways params = Ok res ->
  a_best_id res = Some id ->
  exists rw terms,
    rw ∈ runways /\ rw_id rw = id /\
    runway_fit_score ac rw params = Ok (true, a_best_score res, terms) /\
    0 <= a_best_score res <= 1 /\
    (NoDup (rw_id <$> runways) ->
     a_debug res !! id = Some (debug_entry true (a_best_score res) terms)).
Proof.
  unfold assign_runway_for_aircraft.
  destruct (loop ac params runways locals_init) as [st|e] eqn:Hl; [|done].
  run_result. intros Hres Hid. inversion Hres; subst res.
  cbn [a_best_id a_best_score a_debug] in *.
  destruct (loop_best_sound runways _ _ Hl)
    as [[Hsame _]|(rw & t & Hin & Hbest & Hrw)].
  { rewrite Hsame in Hid. done. }
  exists rw, t. rewrite Hbest in Hid. inversion Hid; subst id.
  split; [done|]. split; [done|]. split; [done|].
  split; [by destruct (runway_fit_score_Ok_inv _ _ _ _ _ _ Hrw) as (? & _)|].
  intros Hnd.
  destruct (loop_spec ac params runways locals_init
              (loop_Ok_inv runways _ _ Hl)) as (st' & Hl' & _ & Hent & _).
  rewrite Hl in Hl'. inversion Hl'; subst st'.
  by apply Hent.
Qed.

(** A selected id is the id of a direction of the list that passed the
    gates, best_score is that direction's score and lies in [0,1]; when the
    ids are pairwise distinct, debug holds that direction's entry under the
    selected id. *)
Theorem assign_best_sound (runways : list RunwayDir) (res : Assignment)
    (id : string) :
  assign_runway_for_aircraft ac runways params = Ok res ->
  a_best_id res = Some id ->
  exists rw terms,
    rw ∈ runways /\ rw_id rw = id /\
    runway_fit_score ac rw params = Ok (true, a_best_score res, terms) /\
    0 <= a_best_score res <= 1 /\
    (NoDup (rw_id <$> runways) ->
     a_debug res !! id = Some (debug_entry true (a_best_score res) terms)).
Proof. apply assign_best_entry. Qed.

(** best_id is none exactly when no direction of the list passes. *)
Theorem assign_best_None_iff (runways : list RunwayDir) (res : Assignment) :
  assign_runway_for_aircraft ac runways params = Ok res ->
  (a_best_id res = None <->
   forall rw score terms, rw ∈ runways ->
     runway_fit_score ac rw params <> Ok (true, score, terms)).
Proof.
  unfold assign_runway_for_aircraft.
  destruct (loop ac params runways locals_init) as [st|e] eqn:Hl; [|done].
  run_result. intros Hres. inversion Hres; subst res. cbn [a_best_id].
  split.
  - intros Hnone. by apply (loop_best_None runways locals_init st).
  - intros Hno.
    destruct (loop_best_sound runways _ _ Hl)
      as [[Hsame _]|(rw & t & Hin & _ & Hrw)]; [done|].
    by destruct (Hno rw (best_score st) t Hin).
Qed.

End selection_sound.

(** ** The ICN table and the snapshot runner *)



Lemma eastbound_off_track (rw : RunwayDir) :
  rw ∈ RUNWAYS ->
  ang_diff_deg (track_deg ac_eastbound) (course_deg rw) > 20.
Proof.
  unfold RUNWAYS. rewrite !elem_of_cons, elem_of_nil.
  cbn [ac_eastbound mkAircraft track_deg].
  intros H.
  repeat (destruct H as [->|H]); try done; cbn [mkRunway course_deg].
  1,2: rewrite (ang_diff_deg_eval 90 333 117 (-1)) by lra;
       rewrite Rabs_pos_eq; lra.
  1,2: rewrite (ang_diff_deg_eval 90 340 110 (-1)) by lra;
       rewrite Rabs_pos_eq; lra.
  1,2: rewrite (ang_diff_deg_eval 90 153 (-63) 0) by lra;
       rewrite Rabs_left; lra.
  1,2: rewrite (ang_diff_deg_eval 90 160 (-70) 0) by lra;
       rewrite Rabs_left; lra.
Qed.

Lemma eastbound_scored (params : ScoreParams) (rw : RunwayDir) :
  track_gate_deg params = Some 20 -> rw ∈ RUNWAYS ->
  exists terms,
    runway_fit_score ac_eastbound rw params = Ok (false, 0, terms).
Proof.
  intros Hg Hin. eexists.
  apply (runway_fit_score_track_gate _ _ params 20); [done|].
  by apply eastbound_off_track.
Qed.

Lemma assign_returns (ac : AircraftState) (runways : list RunwayDir)
    (params : ScoreParams) :
  (forall rw, rw ∈ runways ->
     exists r, runway_fit_score ac rw params = Ok r) ->
  exists res, assign_runway_for_aircraft ac runways params = Ok res.
Proof.
  intros Hall. unfold assign_runway_for_aircraft.
  destruct (loop_spec ac params runways locals_init Hall) as (st & Hl & _).
  rewrite Hl. by eexists.
Qed.

(** The aligned aircraft against the single direction A. *)
Lemma assign_best_sound_witness :
  exists res rw terms,
    assign_runway_for_aircraft ac_on_centerline [rw_A] testapi.PARAMS
      = Ok res /\
    a_best_id res = Some "A" /\
    rw ∈ [rw_A] /\ rw_id rw = "A" /\
    runway_fit_score ac_on_centerline rw testapi.PARAMS
      = Ok (true, a_best_score res, terms) /\
    0 <= a_best_score res <= 1 /\
    (NoDup (rw_id <$> [rw_A]) ->
     a_debug res !! "A" = Some (debug_entry true (a_best_score res) terms)).
Proof.
  destruct aligned_passes_A as (s & t & H & _).
  destruct (clear_winner_selected ac_on_centerline testapi.PARAMS rw_A s t H
              [] []) as (res & Hres & Hid & _).
  { intros rw Hin. by apply elem_of_nil in Hin. }
  { intros rw s' t' Hin. by apply elem_of_nil in Hin. }
  cbn [app] in Hres.
  destruct (assign_best_sound ac_on_centerline testapi.PARAMS [rw_A] res "A"
              Hres Hid) as (rw & terms & Hsound).
  by exists res, rw, terms.
Defined.

(** The eastbound aircraft against the ICN table. *)
Lemma assign_best_None_iff_witness :
  exists res,
    assign_runway_for_aircraft ac_eastbound RUNWAYS testapi.PARAMS = Ok res /\
    (a_best_id res = None <->
     forall rw score terms, rw ∈ RUNWAYS ->
       runway_fit_score ac_eastbound rw testapi.PARAMS
         <> Ok (true, score, terms)).
Proof.
  destruct (assign_returns ac_eastbound RUNWAYS testapi.PARAMS) as [res Hres].
  { intros rw Hin.
    destruct (eastbound_scored testapi.PARAMS rw eq_refl Hin) as [t H].
    by eexists. }
  exists res. split; [done|].
  by apply (assign_best_None_iff ac_eastbound testapi.PARAMS RUNWAYS res).
Defined.

(** Without [xtrack_gate_nm] the selector never selects: whenever it
    returns, best_id is none and best_score is 0. *)
Theorem assign_without_xtrack_gate ac runways params res :
  xtrack_gate_nm params = None ->
  assign_runway_for_aircraft ac runways params = Ok res ->
  a_best_id res = None /\ a_best_score res = 0.
Proof.
  intros Hx. unfold assign_runway_for_aircraft.
  destruct (loop ac params runways locals_init) as [st|e] eqn:Hl; [|done].
  run_result. intros Hres. inversion Hres; subst res.
  cbn [a_best_id a_best_score].
  destruct (loop_best_sound ac params runways _ _ Hl)
    as [[-> ->]|(rw & t & _ & _ & Hrw)]; [done|].
  destruct (runway_fit_score_pass_inv _ _ _ _ _ Hrw)
    as (_ & g_x & _ & _ & _ & Hx' & _).
  rewrite Hx in Hx'. done.
Qed.

(** The default parameters, for the eastbound aircraft against the ICN
    table. *)
Lemma assign_without_xtrack_gate_witness :
  exists res,
    assign_runway_for_aircraft ac_eastbound RUNWAYS DEFAULT_PARAMS = Ok res /\
    a_best_id res = None /\ a_best_score res = 0.
Proof.
  destruct (assign_returns ac_eastbound RUNWAYS DEFAULT_PARAMS) as [res Hres].
  { intros rw Hin.
    destruct (eastbound_scored DEFAULT_PARAMS rw eq_refl Hin) as [t H].
    by eexists. }
  exists res. split; [done|].
  by apply (assign_without_xtrack_gate ac_eastbound RUNWAYS DEFAULT_PARAMS).
Defined.


(** ** Many aircraft *)

(** [assign_runways] returns the list of the assignments of the aircraft,
    one per aircraft and in their order, and it returns only if every one of
    them does. *)
Theorem assign_runways_Forall2 (aircraft : list AircraftState)
    (runways : list RunwayDir) (params : ScoreParams)
    (out : list Assignment) :
  assign_runways aircraft runways params = Ok out <->
  Forall2 (fun ac res => assign_runway_for_aircraft ac runways params = Ok res)
    aircraft out.
Proof.
  unfold assign_runways. revert out.
  induction aircraft as [|ac acs IH]; intros out; cbn [mapM].
  - unfold mret, result_ret. split.
    + intros H. inversion H. constructor.
    + intros H. by inversion H.
  - destruct (assign_runway_for_aircraft ac runways params) as [res|e] eqn:Hac;
      run_result.
    + destruct (mapM _ acs) as [rest|e'] eqn:Hrest; run_result.
      * unfold mret, result_ret. split.
        -- intros H. inversion H; subst. constructor; [done|].
           by apply IH.
        -- intros H. inversion H as [|? ? ? ? Hres Htail]; subst.
           rewrite Hac in Hres. inversion Hres; subst.
           apply IH in Htail. by inversion Htail.
      * split; [done|].
        intros H. inversion H as [|? ? ? ? _ Htail]; subst.
        apply IH in Htail. done.
    + split; [done|]. intros H. inversion H as [|? ? ? ? Hres _]; subst.
      rewrite Hac in Hres. done.
Qed.

(** ** The per-aircraft summary *)

Lemma confidence_not_low (dtrack x : R) :
  0 <= dtrack <= 20 -> Rabs x <= 0.40 ->
  testapi.confidence_from_terms dtrack x = "high" \/
  testapi.confidence_from_terms dtrack x = "medium".
Proof.
  intros Hd Hx. unfold testapi.confidence_from_terms. cbv zeta.
  rewrite (Rabs_pos_eq dtrack) by lra.
  destruct (Rleb dtrack 10 && Rleb (Rabs x) 0.20); [by left|].
  replace (Rleb dtrack 20) with true by (symmetry; apply Rleb_true; lra).
  replace (Rleb (Rabs x) 0.40) with true by (symmetry; by apply Rleb_true).
  by right.
Qed.

(** When the ids of the table are pairwise distinct and the gates are no
    wider than 20 degrees and 0.40 NM, the summary of an assignment is
    "unknown" exactly when nothing was selected, and otherwise reports the
    selected direction's dtrack, x_nm and d_nm with confidence "high" or
    "medium": never "low". *)
Theorem summarize_spec ac runways params (g_t g_x : R) res (r : StateRow.t) :
  NoDup (rw_id <$> runways) ->
  track_gate_deg params = Some g_t -> g_t <= 20 ->
  xtrack_gate_nm params = Some g_x -> g_x <= 0.40 ->
  assign_runway_for_aircraft ac runways params = Ok res ->
  let s := summarize res r in
  s_best s = a_best_id res /\ s_score s = a_best_score res /\
  (s_conf s = "unknown" <-> a_best_id res = None) /\
  s_conf s <> "low" /\
  (forall id, a_best_id res = Some id ->
     exists rw, rw ∈ runways /\ rw_id rw = id /\
       s_dtrack s = Num (ang_diff_deg (track_deg ac) (course_deg rw)) /\
       s_x_nm s = Num (cross_along_nm (lat ac) (lon ac) rw).1.1 /\
       s_d_nm s = Num (cross_along_nm (lat ac) (lon ac) rw).2 /\
       (s_conf s = "high" \/ s_conf s = "medium")).
Proof.
  intros Hnd Hg Hg20 Hx Hx40 Hres. cbv zeta.
  destruct (a_best_id res) as [id|] eqn:Hid.
  - destruct (assign_best_entry ac params runways res id Hres Hid)
      as (rw & t & Hin & Hrwid & Hrw & _ & Hentry).
    specialize (Hentry Hnd).
    destruct (runway_fit_score_Ok_inv _ _ _ _ _ _ Hrw)
      as (_ & _ & Hdt & Hxn & Hdn & Hp & Hs).
    destruct (lookup_debug_entry true (a_best_score res) t Hp Hs)
      as (Hpass & _ & Hsub).
    pose proof (lookup_weaken _ _ _ _ Hdt Hsub) as Edt.
    pose proof (lookup_weaken _ _ _ _ Hxn Hsub) as Exn.
    pose proof (lookup_weaken _ _ _ _ Hdn Hsub) as Edn.
    destruct (runway_fit_score_pass_inv _ _ _ _ _ Hrw)
      as (g_t' & g_x' & _ & _ & Hg' & Hx' & _ & _ & _ & Hd & Hc & _).
    rewrite Hg in Hg'. rewrite Hx in Hx'.
    inversion Hg'; inversion Hx'; subst g_t' g_x'.
    assert (Hconf :
      testapi.confidence_from_terms
        (ang_diff_deg (track_deg ac) (course_deg rw))
        (cross_along_nm (lat ac) (lon ac) rw).1.1 = "high" \/
      testapi.confidence_from_terms
        (ang_diff_deg (track_deg ac) (course_deg rw))
        (cross_along_nm (lat ac) (lon ac) rw).1.1 = "medium").
    { apply confidence_not_low; [|lra].
      split; [apply Rabs_pos | lra]. }
    unfold summarize. rewrite Hid, Hentry, Hpass, Edt, Exn, Edn.
    cbn [dict_get float_of_bool get_or_nan].
    replace (Reqb 1 1) with true by (symmetry; by apply Reqb_true).
    cbn [s_best s_score s_conf s_dtrack s_x_nm s_d_nm].
    split; [done|]. split; [done|].
    split; [split; [|done]; intros E; destruct Hconf as [E'|E'];
            rewrite E' in E; discriminate E|].
    split; [destruct Hconf as [E'|E']; rewrite E'; discriminate|].
    intros id' Hid'. inversion Hid'; subst id'.
    exists rw. by repeat split.
  - unfold summarize. rewrite Hid.
    cbn [s_best s_score s_conf s_dtrack s_x_nm s_d_nm].
    repeat split; try done.
Qed.

(** The aligned aircraft against the single direction A, with the
    parameters of the runner. *)
Lemma summarize_spec_witness :
  exists res rw,
    assign_runway_for_aircraft ac_on_centerline [rw_A] testapi.PARAMS
      = Ok res /\
    rw ∈ [rw_A] /\
    s_dtrack (summarize res (StateRow.mk "" "" "" None 0 0 0.01 None None None
                               None None None None 0 None))
      = Num (ang_diff_deg (track_deg ac_on_centerline) (course_deg rw)).
Proof.
  destruct aligned_passes_A as (s & t & H & _).
  destruct (clear_winner_selected ac_on_centerline testapi.PARAMS rw_A s t H
              [] []) as (res & Hres & Hid & _).
  { intros rw Hin. by apply elem_of_nil in Hin. }
  { intros rw s' t' Hin. by apply elem_of_nil in Hin. }
  cbn [app] in Hres.
  destruct (summarize_spec ac_on_centerline [rw_A] testapi.PARAMS 20 0.3 res
              (StateRow.mk "" "" "" None 0 0 0.01 None None None
                 None None None None 0 None))
    as (_ & _ & _ & _ & Hsel); try reflexivity; try lra; try done.
  { apply NoDup_singleton. }
  destruct (Hsel _ Hid) as (rw & Hin & _ & Hdt & _).
  by exists res, rw.
Defined.

(** ** The filters of the snapshot runner *)

Lemma elem_of_List_filter {A : Type} (f : A -> bool) (l : list A) (x : A) :
  x ∈ List.filter f l <-> x ∈ l /\ f x = true.
Proof. rewrite !list_elem_of_In. apply filter_In. Qed.

Lemma List_filter_comm {A : Type} (f g : A -> bool) (l : list A) :
  List.filter f (List.filter g l) = List.filter g (List.filter f l).
Proof.
  induction l as [|x l IH]; [reflexivity|]. cbn [List.filter].
  destruct (g x) eqn:Hg; destruct (f x) eqn:Hf; cbn [List.filter];
    rewrite ?Hg, ?Hf, IH; reflexivity.
Qed.

(** A row survives the airborne filter exactly when it is not flagged on
    the ground and has a known speed above 10 m/s, and the descending filter
    exactly when it has a known negative vertical rate: a null speed or
    vertical rate drops the row, a null ground flag does not.  The two
    filters commute. *)
Theorem filter_airborne_descending (rows : list StateRow.t) (r : StateRow.t) :
  (r ∈ filter_airborne rows <->
   r ∈ rows /\ StateRow.on_ground r <> Some true /\
   exists v : R, StateRow.velocity_mps r = Some v /\ v > 10) /\
  (r ∈ filter_descending rows <->
   r ∈ rows /\ exists w : R, StateRow.vertical_rate_mps r = Some w /\ w < 0) /\
  filter_descending (filter_airborne rows)
    = filter_airborne (filter_descending rows).
Proof.
  split; [|split].
  - unfold filter_airborne. rewrite elem_of_List_filter.
    split; intros [Hin H]; (split; [done|]).
    + apply andb_prop in H as [Hg Hv].
      split.
      * intros E. rewrite E in Hg. done.
      * apply Rgtb_true in Hv. unfold or_0 in Hv.
        destruct (StateRow.velocity_mps r) as [v|]; [|lra].
        exists v. split; [done|].
        destruct (Reqb v 0) eqn:E; [lra | done].
    + destruct H as (Hg & v & Hv & Hgt). rewrite Hv.
      apply andb_true_intro. split.
      * destruct (StateRow.on_ground r) as [[]|]; done.
      * apply Rgtb_true. unfold or_0.
        replace (Reqb v 0) with false by (symmetry; apply Reqb_false; lra).
        done.
  - unfold filter_descending. rewrite elem_of_List_filter.
    split; intros [Hin H]; (split; [done|]).
    + destruct (StateRow.vertical_rate_mps r) as [w|]; [|done].
      exists w. split; [done|]. by apply Rltb_true.
    + destruct H as (w & -> & Hw). by apply Rltb_true.
  - apply List_filter_comm.
Qed.

Lemma pyfloat_leb_refl (a : pyfloat) : pyfloat_leb a a = true.
Proof. destruct a; [apply Rleb_true; cbn; lra | reflexivity]. Qed.

(** The running minimum after a table: below the start value and below
    every distance of the table, and equal to the start value or to one of
    those distances. *)
Lemma nearest_threshold_spec (runways : list RunwayDir) (lat lon : R) :
  forall dmin0 : pyfloat,
  exists dmin : pyfloat,
    nearest_threshold runways lat lon dmin0 = Some dmin /\
    pyfloat_leb dmin dmin0 = true /\
    (forall rw, rw ∈ runways ->
       exists d, haversine_nm (lat_thr rw) (lon_thr rw) lat lon = Some d /\
                 pyfloat_leb dmin (Fin d) = true) /\
    (dmin = dmin0 \/
     exists rw, rw ∈ runways /\
       haversine_nm (lat_thr rw) (lon_thr rw) lat lon
       = match dmin with Fin d => Some d | Inf => None end).
Proof.
  induction runways as [|rw rest IH]; intros dmin0.
  - exists dmin0. cbn [nearest_threshold].
    split; [done|]. split; [apply pyfloat_leb_refl|].
    split; [|by left]. intros rw Hin. by apply elem_of_nil in Hin.
  - assert (exists d, haversine_nm (lat_thr rw) (lon_thr rw) lat lon = Some d)
      as (d & Hd) by (rewrite haversine_nm_eq; by eexists).
    cbn [nearest_threshold]. rewrite Hd. cbn [mbind option_bind].
    set (d1 := if pyfloat_ltb (Fin d) dmin0 then Fin d else dmin0).
    assert (H1 : pyfloat_leb d1 dmin0 = true /\
                 pyfloat_leb d1 (Fin d) = true /\
                 (d1 = dmin0 \/ d1 = Fin d)).
    { subst d1. destruct dmin0 as [x|]; cbn [pyfloat_ltb].
      - destruct (Rltb d x) eqn:E.
        + apply Rltb_true in E. cbn [pyfloat_leb].
          split; [apply Rleb_true; lra|].
          split; [apply Rleb_true; lra | by right].
        + apply Rltb_false in E. cbn [pyfloat_leb].
          split; [apply Rleb_true; lra|].
          split; [by apply Rleb_true | by left].
      - cbn [pyfloat_leb]. split; [done|].
        split; [apply Rleb_true; lra | by right]. }
    destruct H1 as (Hle0 & Hled & Hcase).
    destruct (IH d1) as (dmin & Hn & Hle1 & Hall & Hex).
    assert (Htrans : forall c, pyfloat_leb d1 c = true ->
                               pyfloat_leb dmin c = true).
    { intros c Hc. destruct dmin as [a|], d1 as [b|], c as [c|];
        cbn [pyfloat_leb] in *; try done.
      apply Rleb_true in Hle1, Hc. apply Rleb_true. lra. }
    exists dmin. split; [done|]. split; [by apply Htrans|]. split.
    + intros rw' Hin. apply elem_of_cons in Hin as [->|Hin].
      * exists d. split; [done | by apply Htrans].
      * by apply Hall.
    + destruct Hex as [->|(rw' & Hin & Hrw')].
      * destruct Hcase as [->| ->]; [by left|].
        right. exists rw. split; [by left | done].
      * right. exists rw'. split; [by right | done].
Qed.

(** The proximity filter never raises.  A row is in its output exactly when
    it is a row of the input with [dist_nm] set to its distance to the
    nearest ICN threshold and that distance is at most [max_nm]. *)
Theorem filter_within_nm_any_threshold_spec (rows : list StateRow.t) (max_nm : R) :
  exists out : list StateRow.t,
    filter_within_nm_any_threshold rows max_nm = Some out /\
    (length out <= length rows)%nat /\
    forall r' : StateRow.t,
      r' ∈ out <->
      exists (r : StateRow.t) (d : R),
        r ∈ rows /\ r' = StateRow.set_dist_nm r d /\ d <= max_nm /\
        (exists rw, rw ∈ RUNWAYS /\
           haversine_nm (lat_thr rw) (lon_thr rw) (StateRow.lat r) (StateRow.lon r)
           = Some d) /\
        (forall rw, rw ∈ RUNWAYS ->
           exists d', haversine_nm (lat_thr rw) (lon_thr rw)
                        (StateRow.lat r) (StateRow.lon r) = Some d' /\ d <= d').
Proof.
  assert (Hmin : forall r : StateRow.t, exists d : R,
    nearest_threshold RUNWAYS (StateRow.lat r) (StateRow.lon r) Inf = Some (Fin d) /\
    (exists rw, rw ∈ RUNWAYS /\
       haversine_nm (lat_thr rw) (lon_thr rw) (StateRow.lat r) (StateRow.lon r)
       = Some d) /\
    (forall rw, rw ∈ RUNWAYS ->
       exists d', haversine_nm (lat_thr rw) (lon_thr rw)
                    (StateRow.lat r) (StateRow.lon r) = Some d' /\ d <= d')).
  { intros r.
    destruct (nearest_threshold_spec RUNWAYS (StateRow.lat r) (StateRow.lon r) Inf)
      as (dmin & Hn & _ & Hall & Hex).
    destruct dmin as [d|].
    - exists d. split; [done|]. split.
      + destruct Hex as [E|Hex]; [discriminate E | exact Hex].
      + intros rw Hin. destruct (Hall rw Hin) as (d' & Hd' & Hle).
        exists d'. split; [done|]. by apply Rleb_true in Hle.
    - destruct (Hall (mkRunway "33L" 37.4542 126.4608 333 23))
        as (d' & _ & Hle); [by left | done]. }
  assert (Huniq : forall (r : StateRow.t) (d1 d2 : R),
    (exists rw, rw ∈ RUNWAYS /\
       haversine_nm (lat_thr rw) (lon_thr rw) (StateRow.lat r) (StateRow.lon r)
       = Some d1) ->
    (forall rw, rw ∈ RUNWAYS ->
       exists d', haversine_nm (lat_thr rw) (lon_thr rw)
                    (StateRow.lat r) (StateRow.lon r) = Some d' /\ d2 <= d') ->
    d2 <= d1).
  { intros r d1 d2 (rw & Hin & Hd1) Hall.
    destruct (Hall rw Hin) as (d' & Hd' & Hle).
    rewrite Hd1 in Hd'. inversion Hd'. lra. }
  induction rows as [|r rest IH].
  - exists []. split; [done|]. split; [done|].
    intros r'. split.
    + intros Hin. by apply elem_of_nil in Hin.
    + intros (r & d & Hin & _). by apply elem_of_nil in Hin.
  - destruct IH as (out & Hout & Hlen & Hspec).
    destruct (Hmin r) as (d & Hn & Hex & Hall).
    cbn [filter_within_nm_any_threshold]. rewrite Hn.
    cbn [mbind option_bind]. rewrite Hout.
    destruct (Rleb d max_nm) eqn:Hle.
    + apply Rleb_true in Hle.
      exists (StateRow.set_dist_nm r d :: out). split; [done|].
      split; [cbn [length]; lia|].
      intros r'. rewrite elem_of_cons, Hspec. split.
      * intros [->|(r0 & d0 & Hin & Hrest)].
        -- exists r, d. split; [by left | done].
        -- exists r0, d0. split; [by right | done].
      * intros (r0 & d0 & Hin & -> & Hle0 & Hex0 & Hall0).
        apply elem_of_cons in Hin as [->|Hin].
        -- left. f_equal.
           pose proof (Huniq r d d0 Hex Hall0).
           pose proof (Huniq r d0 d Hex0 Hall). lra.
        -- right. by exists r0, d0.
    + apply Rleb_false in Hle.
      exists out. split; [done|]. split; [cbn [length]; lia|].
      intros r'. rewrite Hspec. split.
      * intros (r0 & d0 & Hin & Hrest). exists r0, d0.
        split; [by right | done].
      * intros (r0 & d0 & Hin & -> & Hle0 & Hex0 & Hall0).
        apply elem_of_cons in Hin as [->|Hin].
        -- pose proof (Huniq r d0 d Hex0 Hall). lra.
        -- by exists r0, d0.
Qed.

(** ** Selection of a clear winner *)



